(** * Learning-platform backend: request handlers over the key-value store

    A shallow embedding of the request handlers of
    [supabase/functions/server/index.tsx] (progress, achievements, chat,
    roadmap generation, topic content) together with the properties the
    specification states about them.

    Conventions of the embedding.
    - JSON numbers are the doubles of integer value, written as integers
      ([Z]); arithmetic on them rounds as IEEE binary64 does ([round53],
      [js_plus], [js_floor_div]), and a result that is not finite is stored
      as null. Fractional values are outside the model.
    - A field that may be absent from a JSON object ([undefined] in the
      handler) is an [option]; the JavaScript operator [||] is [js_or] /
      [js_or_else] over the truthiness of the value's type.
    - The identity provider, the completion providers and the clock are
      external: a request carries the verified user (or none), provider
      replies and clock readings are given by oracles.
    - A handler is a computation that may answer early ([return c.json(..)])
      or throw; [handle] is the surrounding [try { .. } catch] that turns a
      throw into a 500 response. *)

From Stdlib Require Import ZArith Ascii String List Lia Bool.
From stdpp Require Import base option gmap strings list fin_maps.

Local Open Scope string_scope.
Local Open Scope Z_scope.

(** ** JavaScript truthiness and the [||] operator *)

Class Truthy (A : Type) := truthy : A -> bool.

#[export] Instance truthy_Z : Truthy Z := fun n => negb (n =? 0).
#[export] Instance truthy_string : Truthy string :=
  fun s => match s with EmptyString => false | String _ _ => true end.
#[export] Instance truthy_bool : Truthy bool := fun b => b.
(* arrays are objects: always truthy, also when empty *)
#[export] Instance truthy_list {A} : Truthy (list A) := fun _ => true.
(* an absent field is [undefined] *)
#[export] Instance truthy_option {A} `{Truthy A} : Truthy (option A) :=
  fun o => match o with Some a => truthy a | None => false end.

(** [a || b] where both sides may be absent. *)
Definition js_or {A} `{Truthy A} (a b : A) : A := if truthy a then a else b.

(** [a || d] where [d] is a literal default. *)
Definition js_or_else {A} `{Truthy A} (a : option A) (d : A) : A :=
  match a with
  | Some x => if truthy x then x else d
  | None => d
  end.

(** ** JavaScript numbers of integer value *)

(** The double nearest to an integer (ties to even), or none when that is an
    infinity. Integers of at most 53 significant bits are doubles
    themselves. *)
Definition round53 (z : Z) : option Z :=
  let a := Z.abs z in
  let e := Z.log2 a - 52 in
  if e <=? 0 then Some z
  else
    let q := a / 2 ^ e in
    let r := a mod 2 ^ e in
    let half := 2 ^ (e - 1) in
    let m := if r <? half then q
             else if half <? r then q + 1
             else if Z.even q then q else q + 1 in
    let v := m * 2 ^ e in
    if 2 ^ 1024 <=? v then None else Some (Z.sgn z * v).

(** [a + b] on numbers: the operands as the doubles they are read as, the
    sum rounded; none when the result is not finite (an infinity or NaN,
    which JSON writes as null). *)
Definition js_plus (a b : Z) : option Z :=
  match round53 a, round53 b with
  | Some a', Some b' => round53 (a' + b')
  | _, _ => None
  end.

(** [Math.floor(n / d)] for a non-zero double [n] of integer value and a
    positive divisor [d]: the quotient rounded to 53 significant bits
    (ties to even), then floored. [k] is the binary exponent of the exact
    quotient, [m] the rounded significand at exponent [e]. *)
Definition js_floor_div (n d : Z) : Z :=
  if n =? 0 then 0
  else
    let a := Z.abs n in
    let k0 := Z.log2 a - Z.log2 d in
    let k := if a * 2 ^ Z.max 0 (- k0) <? d * 2 ^ Z.max 0 k0
             then k0 - 1 else k0 in
    let e := k - 52 in
    let N := a * 2 ^ Z.max 0 (- e) in
    let D := d * 2 ^ Z.max 0 e in
    let q := N / D in
    let r := N mod D in
    let m := if 2 * r <? D then q
             else if D <? 2 * r then q + 1
             else if Z.even q then q else q + 1 in
    if 0 <=? e then Z.sgn n * m * 2 ^ e else (Z.sgn n * m) / 2 ^ (- e).

(** An environment variable as the handlers test it: [const k =
    Deno.env.get(..); if (!k) ..] treats an unset and an empty variable
    alike. *)
Definition configured (k : option string) : option string :=
  match k with
  | Some s => if truthy s then Some s else None
  | None => None
  end.

(** Template-literal interpolation [`${x}`] of a possibly absent string. *)
Definition interp (x : option string) : string :=
  match x with Some s => s | None => "undefined" end.

(** [s.includes(key)] *)
Fixpoint includes (key s : string) : bool :=
  String.prefix key s ||
  match s with
  | EmptyString => false
  | String _ s' => includes key s'
  end.

(** ** Stored records *)

Record User := { user_id : string; user_email : string; user_name : string }.

Record Profile := {
  pf_userId : string;
  pf_email : string;
  pf_name : string;
  pf_background : option string;
  pf_currentRole : option string;
  pf_yearsOfExperience : option Z;
  pf_knownSkills : list string;
  pf_targetGoal : option string;
  pf_preferredLanguage : option string;
  pf_learningPace : option string;
  pf_hoursPerWeek : option Z;
  pf_learningStyle : option string;
  pf_onboardingComplete : bool;
  pf_createdAt : string;
  pf_updatedAt : string
}.

Record Progress := {
  userId : option string;
  moduleId : option string;
  status : option string;
  timeSpent : option Z;
  performanceScore : option Z;
  notes : option string;
  completedTopics : option (list string);
  lastUpdated : option string;
  completedAt : option string
}.

(** The object literal [{}]. *)
Definition empty_progress : Progress :=
  {| userId := None; moduleId := None; status := None; timeSpent := None;
     performanceScore := None; notes := None; completedTopics := None;
     lastUpdated := None; completedAt := None |}.

Record ChatMessage := {
  role : string;
  content : option string;
  timestamp : option string
}.

(** Stored achievements. An entry of [unlocked] is an id or null (none),
    [xp] and [level] are numbers or null (none). *)
Record Achievements := {
  unlocked : list (option string);
  xp : option Z;
  level : option Z;
  streak : Z
}.

Record Module_ := {
  m_id : string;
  m_title : string;
  m_description : string;
  m_topics : list string;
  m_estimatedHours : Z;
  m_difficulty : string;
  m_resources : list string
}.

Record Phase := {
  ph_id : string;
  ph_title : string;
  ph_description : string;
  ph_estimatedWeeks : Z;
  ph_modules : list Module_
}.

Record Template := {
  phases : list Phase;
  totalEstimatedWeeks : Z;
  skillsToMaster : list string
}.

(** The [content] of a roadmap: one of the authored templates, or the value
    [JSON.parse] returned for the provider's text. *)
Inductive RoadmapContent :=
| NoTemplate                   (* [templates[key]] of a key without entry *)
| FromTemplate (t : Template)
| Parsed (json : string).

Record Roadmap := {
  rm_userId : string;
  rm_targetGoal : option string;
  rm_content : RoadmapContent;
  rm_createdAt : string;
  rm_lastUpdated : string;
  rm_isTemplate : bool
}.

Record Video := { v_title : string; searchUrl : string; embedQuery : string }.

(** What the topic generator obtains from the provider's text: the parsed
    object at the fields the handler uses, [youtubeSearchQueries] being
    absent or an array of strings (other values are not represented). *)
Record Generated := {
  explanation : option string;
  keyPoints : list string;
  applications : list string;
  pitfalls : list string;
  practiceIdeas : list string;
  youtubeSearchQueries : option (list string)
}.

Record TopicContent := {
  tc_generated : Generated;
  youtubeVideos : list Video;
  tc_topic : option string;
  tc_moduleId : option string;
  tc_moduleTitle : option string;
  tc_difficulty : option string;
  generatedAt : string
}.

#[export] Instance truthy_Progress : Truthy Progress := fun _ => true.
#[export] Instance truthy_Profile : Truthy Profile := fun _ => true.
#[export] Instance truthy_Roadmap : Truthy Roadmap := fun _ => true.
#[export] Instance truthy_Achievements : Truthy Achievements := fun _ => true.
#[export] Instance truthy_TopicContent : Truthy TopicContent := fun _ => true.

(** ** The key-value store *)

(** Modelled from the spec: the module [kv_store.tsx] imported by the server,
    "a generic string-keyed JSON blob store with get(key), set(key,value)".
    One finite map per record type: the handlers address each record type
    under its own key prefix ([profile:], [roadmap:], [progress:],
    [topic-content:], [chat:], [achievements:]), so the key spaces are
    disjoint; keys are the full strings the handlers build. *)
Record Store := {
  profiles : gmap string Profile;
  roadmaps : gmap string Roadmap;
  progress : gmap string Progress;
  topics : gmap string TopicContent;
  chats : gmap string (list ChatMessage);
  achievements : gmap string Achievements
}.

Definition empty_store : Store :=
  {| profiles := ∅; roadmaps := ∅; progress := ∅; topics := ∅; chats := ∅;
     achievements := ∅ |}.

(** A record type that lives in the store. *)
Class Stored (T : Type) := {
  table : Store -> gmap string T;
  with_table : gmap string T -> Store -> Store
}.

#[export] Instance stored_Profile : Stored Profile := {|
  table := profiles;
  with_table t s :=
    {| profiles := t; roadmaps := roadmaps s; progress := progress s;
       topics := topics s; chats := chats s; achievements := achievements s |}
|}.
#[export] Instance stored_Roadmap : Stored Roadmap := {|
  table := roadmaps;
  with_table t s :=
    {| profiles := profiles s; roadmaps := t; progress := progress s;
       topics := topics s; chats := chats s; achievements := achievements s |}
|}.
#[export] Instance stored_Progress : Stored Progress := {|
  table := progress;
  with_table t s :=
    {| profiles := profiles s; roadmaps := roadmaps s; progress := t;
       topics := topics s; chats := chats s; achievements := achievements s |}
|}.
#[export] Instance stored_TopicContent : Stored TopicContent := {|
  table := topics;
  with_table t s :=
    {| profiles := profiles s; roadmaps := roadmaps s; progress := progress s;
       topics := t; chats := chats s; achievements := achievements s |}
|}.
#[export] Instance stored_Chat : Stored (list ChatMessage) := {|
  table := chats;
  with_table t s :=
    {| profiles := profiles s; roadmaps := roadmaps s; progress := progress s;
       topics := topics s; chats := t; achievements := achievements s |}
|}.
#[export] Instance stored_Achievements : Stored Achievements := {|
  table := achievements;
  with_table t s :=
    {| profiles := profiles s; roadmaps := roadmaps s; progress := progress s;
       topics := topics s; chats := chats s; achievements := t |}
|}.

(** Modelled from the spec: [kv.get(key)] of the absent [kv_store.tsx]; an
    absent key reads as a falsy value. *)
Definition store_get {T} `{Stored T} (key : string) (s : Store) : option T :=
  table s !! key.

(** Modelled from the spec: [kv.set(key, value)] of the absent
    [kv_store.tsx]; last write wins. *)
Definition store_set {T} `{Stored T} (key : string) (v : T) (s : Store) : Store :=
  with_table (<[key := v]> (table s)) s.

(** ** Responses, the outside world and the handler monad *)

Inductive Payload :=
| PError (msg : string)                       (* { error } *)
| PConfigError (msg : string)                 (* { error, content: null } *)
| PProfile (p : Profile)                      (* { success: true, profile } *)
| PProgress (p : Progress)                    (* { success: true, progress } *)
| PAchievements (a : Achievements)            (* { success: true, achievements } *)
| PRoadmap (r : Roadmap)                      (* { roadmap } *)
| PContent (c : TopicContent)                 (* { content } *)
| PChat (response : option string)            (* { response } *)
| PChatSetup (response : string).             (* { response, requiresSetup: true } *)

Record Response := { code : nat; payload : Payload }.

(** Outbound calls to the completion providers. The prompt text is a fixed
    template over the listed fields, so the log keeps the fields. *)
Inductive ProviderCall :=
| OpenAIRoadmap (key : string) (profile : Profile)
| OpenAIChat (key : string) (profile : option Profile)
    (history : list ChatMessage) (message : option string)
| HFTopic (key : string) (topic moduleTitle difficulty targetGoal : option string).

(** The body of a 2xx provider reply, as far as the handlers look into it. *)
Inductive Completion :=
| BadJson                               (* response.json() rejects *)
| NoChoices                             (* no data.choices[0] *)
| NoMessage                             (* choices[0] without message *)
| Message (content : option string).    (* choices[0].message.content: a string, or the field absent;
                                           null and other values are not represented *)

Inductive FetchResult :=
| FetchFailed (err : string)            (* fetch rejects *)
| NotOk (status statusText : string)    (* status code as printed *)
| Ok2xx (data : Completion).

(** Configuration and external collaborators of one deployment. *)
Record Environment := {
  OPENAI_API_KEY : option string;
  HF_TOKEN : option string;
  (* the k-th reading of [new Date().toISOString()] *)
  clock : nat -> string;
  (* the reply to the latest call of the outbound history *)
  provider : list ProviderCall -> FetchResult;
  (* [JSON.parse] on a roadmap text: does it succeed *)
  json_parses : string -> bool;
  (* [JSON.parse] on a topic text, viewed at the fields the handler uses *)
  parse_generated : string -> option Generated;
  (* [encodeURIComponent]; [None] when it throws *)
  encodeURIComponent : string -> option string
}.

Record World := {
  kv : Store;
  ticks : nat;                 (* clock readings taken so far *)
  sent : list ProviderCall     (* outbound provider calls so far, oldest first *)
}.

Definition with_kv (s : Store) (w : World) : World :=
  {| kv := s; ticks := ticks w; sent := sent w |}.

Inductive Outcome (A : Type) :=
| Next (a : A) (w : World)            (* fall through to the next statement *)
| Return (r : Response) (w : World)   (* return c.json(..) *)
| Threw (e : string) (w : World).     (* an exception propagates *)
Arguments Next {A} a w.
Arguments Return {A} r w.
Arguments Threw {A} e w.

Definition M (A : Type) : Type := World -> Outcome A.

Definition ret {A} (a : A) : M A := fun w => Next a w.

Definition bind {A B} (m : M A) (k : A -> M B) : M B :=
  fun w =>
    match m w with
    | Next a w' => k a w'
    | Return r w' => Return r w'
    | Threw e w' => Threw e w'
    end.

Notation "'let*' x ':=' m 'in' k" := (bind m (fun x => k))
  (at level 10, x name, m at level 100, k at level 200).
Notation "m ';;' k" := (bind m (fun _ => k))
  (at level 100, k at level 200, right associativity).

(** [return c.json(payload, code)] *)
Definition json {A} (p : Payload) (c : nat) : M A :=
  fun w => Return {| code := c; payload := p |} w.

Definition throw {A} (e : string) : M A := fun w => Threw e w.

(** [await kv.get(key)] *)
Definition kv_get {T} `{Stored T} (key : string) : M (option T) :=
  fun w => Next (store_get key (kv w)) w.

(** [await kv.set(key, value)] *)
Definition kv_set {T} `{Stored T} (key : string) (v : T) : M unit :=
  fun w => Next tt (with_kv (store_set key v (kv w)) w).

(** [try { body } catch (error) { return c.json({ error: String(error) }, 500) }] *)
Definition handle (h : M Response) (w : World) : Response * World :=
  match h w with
  | Next r w' => (r, w')
  | Return r w' => (r, w')
  | Threw e w' => ({| code := 500; payload := PError e |}, w')
  end.

(** An incoming request: the user [verifyAuth] resolves the bearer token to
    (none when the token is missing or rejected) and the parsed JSON body
    (none when [c.req.json()] rejects). *)
Record Request (B : Type) := { auth : option User; body : option B }.
Arguments auth {B} r.
Arguments body {B} r.

(** [const user = await verifyAuth(..); if (!user) return c.json({ error: "Unauthorized" }, 401)] *)
Definition require_user (a : option User) : M User :=
  match a with
  | Some u => ret u
  | None => json (PError "Unauthorized") 401
  end.

(** [await c.req.json()] *)
Definition req_json {B} (r : Request B) : M B :=
  match body r with
  | Some b => ret b
  | None => throw "SyntaxError: Unexpected end of JSON input"
  end.

(** ** The authored roadmap templates

    The two entries of the [templates] table of [generateTemplateRoadmap],
    in the order of the object literal. *)

Definition data_scientist_template : Template := {|
  phases := [
    {| ph_id := "phase-1"; ph_title := "Foundations";
     ph_description := "Build a strong foundation in programming, mathematics, and statistics";
     ph_estimatedWeeks := 8;
     ph_modules := [
       {| m_id := "module-1-1"; m_title := "Python Programming Basics";
         m_description := "Master Python syntax, data structures, and basic programming concepts";
         m_topics := ["Variables & Data Types"; "Control Flow"; "Functions"; "OOP Basics"; "File I/O"];
         m_estimatedHours := 40; m_difficulty := "beginner"; m_resources := [] |};
       {| m_id := "module-1-2"; m_title := "Statistics & Probability";
         m_description := "Understand statistical concepts essential for data science";
         m_topics := ["Descriptive Statistics"; "Probability Distributions"; "Hypothesis Testing"; "Correlation"];
         m_estimatedHours := 35; m_difficulty := "beginner"; m_resources := [] |};
       {| m_id := "module-1-3"; m_title := "Linear Algebra & Calculus";
         m_description := "Learn mathematical foundations for machine learning";
         m_topics := ["Vectors & Matrices"; "Matrix Operations"; "Derivatives"; "Gradients"];
         m_estimatedHours := 30; m_difficulty := "intermediate"; m_resources := [] |} ] |};
    {| ph_id := "phase-2"; ph_title := "Data Analysis & Visualization";
     ph_description := "Learn to manipulate, analyze, and visualize data";
     ph_estimatedWeeks := 6;
     ph_modules := [
       {| m_id := "module-2-1"; m_title := "NumPy & Pandas";
         m_description := "Master data manipulation with NumPy and Pandas";
         m_topics := ["NumPy Arrays"; "Pandas DataFrames"; "Data Cleaning"; "Data Transformation"];
         m_estimatedHours := 30; m_difficulty := "intermediate"; m_resources := [] |};
       {| m_id := "module-2-2"; m_title := "Data Visualization";
         m_description := "Create compelling visualizations with Matplotlib and Seaborn";
         m_topics := ["Matplotlib Basics"; "Seaborn"; "Statistical Plots"; "Interactive Visualizations"];
         m_estimatedHours := 25; m_difficulty := "intermediate"; m_resources := [] |} ] |};
    {| ph_id := "phase-3"; ph_title := "Machine Learning";
     ph_description := "Build and deploy machine learning models";
     ph_estimatedWeeks := 10;
     ph_modules := [
       {| m_id := "module-3-1"; m_title := "Supervised Learning";
         m_description := "Learn regression and classification algorithms";
         m_topics := ["Linear Regression"; "Logistic Regression"; "Decision Trees"; "Random Forests"; "SVM"];
         m_estimatedHours := 45; m_difficulty := "advanced"; m_resources := [] |};
       {| m_id := "module-3-2"; m_title := "Unsupervised Learning";
         m_description := "Explore clustering and dimensionality reduction";
         m_topics := ["K-Means Clustering"; "Hierarchical Clustering"; "PCA"; "t-SNE"];
         m_estimatedHours := 35; m_difficulty := "advanced"; m_resources := [] |};
       {| m_id := "module-3-3"; m_title := "Model Evaluation & Deployment";
         m_description := "Evaluate models and deploy to production";
         m_topics := ["Cross-Validation"; "Hyperparameter Tuning"; "Model Metrics"; "Flask API"; "Docker"];
         m_estimatedHours := 30; m_difficulty := "advanced"; m_resources := [] |} ] |} ];
  totalEstimatedWeeks := 24;
  skillsToMaster := ["Python"; "Statistics"; "Machine Learning"; "Data Visualization"; "SQL"]
|}.

Definition full_stack_template : Template := {|
  phases := [
    {| ph_id := "phase-1"; ph_title := "Frontend Fundamentals";
     ph_description := "Master the building blocks of web development";
     ph_estimatedWeeks := 6;
     ph_modules := [
       {| m_id := "module-1-1"; m_title := "HTML & CSS";
         m_description := "Learn to structure and style web pages";
         m_topics := ["HTML5 Semantics"; "CSS Flexbox"; "CSS Grid"; "Responsive Design"; "CSS Animations"];
         m_estimatedHours := 30; m_difficulty := "beginner"; m_resources := [] |};
       {| m_id := "module-1-2"; m_title := "JavaScript Fundamentals";
         m_description := "Master modern JavaScript";
         m_topics := ["ES6+ Syntax"; "DOM Manipulation"; "Async/Await"; "Promises"; "Fetch API"];
         m_estimatedHours := 40; m_difficulty := "beginner"; m_resources := [] |} ] |};
    {| ph_id := "phase-2"; ph_title := "Modern Frontend";
     ph_description := "Build interactive UIs with React";
     ph_estimatedWeeks := 8;
     ph_modules := [
       {| m_id := "module-2-1"; m_title := "React Fundamentals";
         m_description := "Learn component-based development";
         m_topics := ["Components"; "Props & State"; "Hooks"; "Context API"; "React Router"];
         m_estimatedHours := 45; m_difficulty := "intermediate"; m_resources := [] |};
       {| m_id := "module-2-2"; m_title := "State Management";
         m_description := "Manage complex application state";
         m_topics := ["Redux"; "Redux Toolkit"; "Context Patterns"; "TanStack Query"];
         m_estimatedHours := 30; m_difficulty := "intermediate"; m_resources := [] |} ] |};
    {| ph_id := "phase-3"; ph_title := "Backend Development";
     ph_description := "Build robust server-side applications";
     ph_estimatedWeeks := 10;
     ph_modules := [
       {| m_id := "module-3-1"; m_title := "Node.js & Express";
         m_description := "Create RESTful APIs";
         m_topics := ["Express Setup"; "Routing"; "Middleware"; "Error Handling"; "Authentication"];
         m_estimatedHours := 40; m_difficulty := "intermediate"; m_resources := [] |};
       {| m_id := "module-3-2"; m_title := "Databases";
         m_description := "Work with SQL and NoSQL databases";
         m_topics := ["PostgreSQL"; "MongoDB"; "ORMs"; "Database Design"; "Transactions"];
         m_estimatedHours := 35; m_difficulty := "advanced"; m_resources := [] |};
       {| m_id := "module-3-3"; m_title := "Deployment & DevOps";
         m_description := "Deploy applications to production";
         m_topics := ["Docker"; "CI/CD"; "AWS/Vercel"; "Monitoring"; "Testing"];
         m_estimatedHours := 30; m_difficulty := "advanced"; m_resources := [] |} ] |} ];
  totalEstimatedWeeks := 24;
  skillsToMaster := ["React"; "Node.js"; "Express"; "PostgreSQL"; "MongoDB"; "Docker"; "AWS"]
|}.

Definition templates : list (string * Template) :=
  [("Data Scientist", data_scientist_template);
   ("Full-Stack Developer", full_stack_template)].

(** [templates[key]] *)
Fixpoint template_at (key : string) (ts : list (string * Template)) : option Template :=
  match ts with
  | [] => None
  | (k, t) :: ts' => if String.eqb k key then Some t else template_at key ts'
  end.

(** [`profile:${user.id}`] and [`roadmap:${user.id}`] *)
Definition profile_key (u : User) : string := "profile:" +:+ user_id u.
Definition roadmap_key (u : User) : string := "roadmap:" +:+ user_id u.

Section Handlers.

Context (E : Environment).

(** [new Date().toISOString()] *)
Definition now : M string :=
  fun w => Next (clock E (ticks w))
                {| kv := kv w; ticks := S (ticks w); sent := sent w |}.

(** [await fetch(..)] to a completion provider. *)
Definition fetch (c : ProviderCall) : M FetchResult :=
  fun w =>
    let out := (sent w ++ [c])%list in
    Next (provider E out) {| kv := kv w; ticks := ticks w; sent := out |}.

(** *** POST /profile *)

Record ProfileBody := {
  pb_background : option string;
  pb_currentRole : option string;
  pb_yearsOfExperience : option Z;
  pb_knownSkills : option (list string);
  pb_targetGoal : option string;
  pb_preferredLanguage : option string;
  pb_learningPace : option string;
  pb_hoursPerWeek : option Z;
  pb_learningStyle : option string;
  pb_onboardingComplete : option bool
}.

Definition post_profile (r : Request ProfileBody) : M Response :=
  let* user := require_user (auth r) in
  let* b := req_json r in
  let* createdAt_ := now in
  let* updatedAt_ := now in
  let profile :=
    {| pf_userId := user_id user;
       pf_email := user_email user;
       pf_name := user_name user;
       pf_background := pb_background b;
       pf_currentRole := pb_currentRole b;
       pf_yearsOfExperience := pb_yearsOfExperience b;
       pf_knownSkills := js_or_else (pb_knownSkills b) [];
       pf_targetGoal := pb_targetGoal b;
       pf_preferredLanguage := pb_preferredLanguage b;
       pf_learningPace := pb_learningPace b;
       pf_hoursPerWeek := pb_hoursPerWeek b;
       pf_learningStyle := pb_learningStyle b;
       pf_onboardingComplete := js_or_else (pb_onboardingComplete b) false;
       pf_createdAt := createdAt_;
       pf_updatedAt := updatedAt_ |} in
  kv_set (profile_key user) profile ;;
  json (PProfile profile) 200.

(** *** POST /progress *)

(** The destructured body; each field may be absent, and a present field
    has the type of the stored schema. *)
Record ProgressBody := {
  b_moduleId : option string;
  b_status : option string;
  b_timeSpent : option Z;
  b_performanceScore : option Z;
  b_notes : option string;
  b_completedTopics : option (list string)
}.

(** [`progress:${user.id}:${moduleId}`] *)
Definition progress_key (u : User) (moduleId : option string) : string :=
  "progress:" +:+ user_id u +:+ ":" +:+ interp moduleId.

(** The object literal assigned to [progress]. The spread
    [...existingProgress] is followed by every field of the record, so each
    field is given by its own initialiser. *)
Definition merge_progress (u : User) (b : ProgressBody)
    (existingProgress : Progress) : M Progress :=
  let* lastUpdated_ := now in
  let* completedAt_ :=
    (if decide (b_status b = Some "completed")
     then let* t := now in ret (Some t)
     else ret (completedAt existingProgress)) in
  ret {|
    userId := Some (user_id u);
    moduleId := b_moduleId b;
    status := Some (js_or_else (js_or (b_status b) (status existingProgress))
                               "not-started");
    timeSpent := js_plus (js_or_else (timeSpent existingProgress) 0)
                         (js_or_else (b_timeSpent b) 0);
    performanceScore := js_or (b_performanceScore b)
                              (performanceScore existingProgress);
    notes := js_or (b_notes b) (notes existingProgress);
    completedTopics := Some (js_or_else (js_or (b_completedTopics b)
                                               (completedTopics existingProgress))
                                        []);
    lastUpdated := Some lastUpdated_;
    completedAt := completedAt_
  |}.

Definition post_progress (r : Request ProgressBody) : M Response :=
  let* user := require_user (auth r) in
  let* b := req_json r in
  let progressKey := progress_key user (b_moduleId b) in
  let* stored := kv_get progressKey in
  let existingProgress := js_or_else stored empty_progress in
  let* progress_ := merge_progress user b existingProgress in
  kv_set progressKey progress_ ;;
  json (PProgress progress_) 200.

(** *** POST /achievements *)

(** The destructured body [{ achievementId, xp }]; each field may be
    absent (a field given as null is not represented). *)
Record AchievementBody := { achievementId : option string; b_xp : option Z }.

(** [unlocked.includes(achievementId)] on a stored list: an absent id
    ([undefined]) is never found, also not among null entries. *)
Definition includes_id (unlocked : list (option string)) (id : option string) : bool :=
  match id with
  | Some s => bool_decide (Some s ∈ unlocked)
  | None => false
  end.

(** [achievements.xp += xp]: a stored null counts as 0, an absent amount
    gives NaN. *)
Definition add_xp (stored given : option Z) : option Z :=
  match given with
  | Some amount => js_plus (default 0 stored) amount
  | None => None
  end.

(** [Math.floor(xp / 1000) + 1] of the [xp] just computed. *)
Definition js_level (xp' : option Z) : option Z :=
  match xp' with
  | Some x => js_plus (js_floor_div x 1000) 1
  | None => None
  end.

(** The literal used when the user has no stored achievements. *)
Definition initial_achievements : Achievements :=
  {| unlocked := []; xp := Some 0; level := Some 1; streak := 0 |}.

(** The guarded update of the fetched object, as it is stored and returned:
    an absent id is pushed as [undefined] and written as null. *)
Definition unlock (a : Achievements) (b : AchievementBody) : Achievements :=
  if includes_id (unlocked a) (achievementId b) then a
  else
    let xp' := add_xp (xp a) (b_xp b) in
    {| unlocked := (unlocked a ++ [achievementId b])%list;
       xp := xp';
       level := js_level xp';
       streak := streak a |}.

Definition achievements_key (u : User) : string := "achievements:" +:+ user_id u.

Definition post_achievements (r : Request AchievementBody) : M Response :=
  let* user := require_user (auth r) in
  let* b := req_json r in
  let* stored := kv_get (achievements_key user) in
  let achievements_ := unlock (js_or_else stored initial_achievements) b in
  kv_set (achievements_key user) achievements_ ;;
  json (PAchievements achievements_) 200.

(** *** POST /chat *)

Record ChatBody := {
  message : option string;
  conversationHistory : option (list ChatMessage)
}.

Definition chat_setup_message : string :=
  "The AI chat assistant requires an OpenAI API key to be configured. Please add your OpenAI API key to use this feature.".

(** [data.choices[0].message.content] of a parsed reply. *)
Definition first_content (d : Completion) : M (option string) :=
  match d with
  | BadJson => throw "SyntaxError: Unexpected token in JSON"
  | NoChoices => throw "TypeError: Cannot read properties of undefined"
  | NoMessage => throw "TypeError: Cannot read properties of undefined (reading 'content')"
  | Message c => ret c
  end.

(** [if (h.length > 50) h.splice(0, h.length - 50)] *)
Definition keep_last_50 (h : list ChatMessage) : list ChatMessage :=
  if (50 <? length h)%nat then drop (length h - 50) h else h.

Definition chat_key (u : User) : string := "chat:" +:+ user_id u.

Definition post_chat (r : Request ChatBody) : M Response :=
  let* user := require_user (auth r) in
  let* b := req_json r in
  match configured (OPENAI_API_KEY E) with
  | None => json (PChatSetup chat_setup_message) 200
  | Some openAiKey =>
      let* profile := kv_get (T := Profile) (profile_key user) in
      let* roadmap := kv_get (T := Roadmap) (roadmap_key user) in
      let* response :=
        fetch (OpenAIChat openAiKey profile
                 (js_or_else (conversationHistory b) []) (message b)) in
      match response with
      | FetchFailed e => throw e
      | NotOk _ _ => json (PError "Failed to get response from AI assistant") 500
      | Ok2xx data =>
        let* aiResponse := first_content data in
        let* stored := kv_get (chat_key user) in
        let chatHistory := js_or_else stored [] in
        let* t1 := now in
        let* t2 := now in
        let chatHistory :=
          (chatHistory ++
            [ {| role := "user"; content := message b; timestamp := Some t1 |};
              {| role := "assistant"; content := aiResponse; timestamp := Some t2 |} ])%list in
        kv_set (chat_key user) (keep_last_50 chatHistory) ;;
        json (PChat aiResponse) 200
      end
  end.

(** *** POST /generate-roadmap *)

Definition generateTemplateRoadmap (profile : Profile) : M Roadmap :=
  let goal := js_or_else (pf_targetGoal profile) "Full-Stack Developer" in
  let templateKey :=
    js_or_else (List.find (fun key => includes key goal) (map fst templates))
               "Full-Stack Developer" in
  let template :=
    match template_at templateKey templates with
    | Some t => FromTemplate t
    | None => NoTemplate
    end in
  let* t1 := now in
  let* t2 := now in
  ret {| rm_userId := pf_userId profile;
         rm_targetGoal := Some goal;
         rm_content := template;
         rm_createdAt := t1;
         rm_lastUpdated := t2;
         rm_isTemplate := true |}.

(** The two fallback sites of the handler: build the template roadmap, store
    it, answer with it. *)
Definition answer_with_template (user : User) (profile : Profile) : M Response :=
  let* templateRoadmap := generateTemplateRoadmap profile in
  kv_set (roadmap_key user) templateRoadmap ;;
  json (PRoadmap templateRoadmap) 200.

Definition post_generate_roadmap (r : Request unit) : M Response :=
  let* user := require_user (auth r) in
  let* stored := kv_get (profile_key user) in
  match stored with
  | None => json (PError "Profile not found. Please complete onboarding first.") 400
  | Some profile =>
    match configured (OPENAI_API_KEY E) with
    | None => answer_with_template user profile
    | Some openAiKey =>
      let* response := fetch (OpenAIRoadmap openAiKey profile) in
      match response with
      | FetchFailed e => throw e
      | NotOk _ _ => answer_with_template user profile
      | Ok2xx data =>
        let* text := first_content data in
        match text with
        | None => throw "SyntaxError: undefined is not valid JSON"
        | Some text =>
          if json_parses E text then
            let* t1 := now in
            let* t2 := now in
            let roadmap :=
              {| rm_userId := user_id user;
                 rm_targetGoal := pf_targetGoal profile;
                 rm_content := Parsed text;
                 rm_createdAt := t1;
                 rm_lastUpdated := t2;
                 rm_isTemplate := false |} in
            kv_set (roadmap_key user) roadmap ;;
            json (PRoadmap roadmap) 200
          else throw "SyntaxError: Unexpected token in JSON"
        end
      end
    end
  end.

(** *** POST /generate-topic-content *)

Record TopicBody := {
  tb_moduleId : option string;
  tb_moduleTitle : option string;
  tb_topic : option string;
  tb_difficulty : option string;
  tb_targetGoal : option string
}.

Definition content_key (u : User) (b : TopicBody) : string :=
  "topic-content:" +:+ user_id u +:+ ":" +:+ interp (tb_moduleId b)
    +:+ ":" +:+ interp (tb_topic b).

Definition hf_not_configured : string :=
  "HuggingFace API key not configured. Please add HF_TOKEN to environment variables.".

(** [content.match(/\{[\s\S]*\}/)]: from the first opening brace to the last
    closing brace behind it. *)
Fixpoint upto_last_close (s : string) : option string :=
  match s with
  | EmptyString => None
  | String c s' =>
    match upto_last_close s' with
    | Some p => Some (String c p)
    | None => if Ascii.eqb c "}"%char then Some (String c EmptyString) else None
    end
  end.

Fixpoint json_match (s : string) : option string :=
  match s with
  | EmptyString => None
  | String c s' =>
    if Ascii.eqb c "{"%char then
      match upto_last_close s' with
      | Some p => Some (String c p)
      | None => None
      end
    else json_match s'
  end.

Definition default_queries (b : TopicBody) : list string :=
  [ interp (tb_topic b) +:+ " tutorial";
    interp (tb_topic b) +:+ " explained";
    interp (tb_topic b) +:+ " " +:+ interp (tb_targetGoal b) ].

(** The object used when the reply holds no brace-delimited text. *)
Definition raw_text_content (b : TopicBody) (text : string) : Generated :=
  {| explanation := Some text; keyPoints := []; applications := [];
     pitfalls := []; practiceIdeas := [];
     youtubeSearchQueries := Some (default_queries b) |}.

(** The object of the inner [catch (parseError)]. *)
Definition degraded_content (b : TopicBody) : Generated :=
  {| explanation :=
       Some ("Failed to generate detailed content. Topic: " +:+ interp (tb_topic b));
     keyPoints := [ "Learn about " +:+ interp (tb_topic b);
                    "Practice " +:+ interp (tb_topic b);
                    "Apply " +:+ interp (tb_topic b) ];
     applications := [ "Understanding " +:+ interp (tb_topic b) ];
     pitfalls := [ "Skipping fundamentals" ];
     practiceIdeas := [ "Practice " +:+ interp (tb_topic b) ];
     youtubeSearchQueries := Some (default_queries b) |}.

(** The second [try] block: from the parsed reply to [generatedContent]. *)
Definition generated_of (b : TopicBody) (data : Completion) : Generated :=
  match data with
  | Message (Some text) =>
    if truthy text then
      match json_match text with
      | None => raw_text_content b text
      | Some j =>
        match parse_generated E j with
        | Some g => g
        | None => degraded_content b
        end
      end
    else degraded_content b
  | _ => degraded_content b
  end.

(** The loop over the search queries. *)
Fixpoint videos_of (queries : list string) : list Video :=
  match queries with
  | [] => []
  | query :: rest =>
    match encodeURIComponent E query with
    | Some q =>
      {| v_title := query;
         searchUrl := "https://www.youtube.com/results?search_query=" +:+ q;
         embedQuery := query |} :: videos_of rest
    | None => videos_of rest
    end
  end.

(** [await c.req.json()] under the handler's own catch, which answers
    [`Error generating content: ${errorMessage}`]. *)
Definition topic_json (r : Request TopicBody) : M TopicBody :=
  match body r with
  | Some b => ret b
  | None => json (PError "Error generating content: Unexpected end of JSON input") 500
  end.

Definition post_generate_topic_content (r : Request TopicBody) : M Response :=
  let* user := require_user (auth r) in
  let* b := topic_json r in
  let contentKey := content_key user b in
  let* existingContent := kv_get contentKey in
  match existingContent with
  | Some cached => json (PContent cached) 200
  | None =>
    match configured (HF_TOKEN E) with
    | None => json (PConfigError hf_not_configured) 500
    | Some hfToken =>
      let* response :=
        fetch (HFTopic hfToken (tb_topic b) (tb_moduleTitle b)
                 (tb_difficulty b) (tb_targetGoal b)) in
      match response with
      | FetchFailed e => json (PError ("Failed to call HuggingFace API: " +:+ e)) 500
      | NotOk st txt =>
        json (PError ("HuggingFace API failed: " +:+ st +:+ " " +:+ txt)) 500
      | Ok2xx BadJson =>
        json (PError "Failed to call HuggingFace API: SyntaxError: Unexpected token in JSON") 500
      | Ok2xx data =>
        let generatedContent := generated_of b data in
        let youtubeVideos_ :=
          videos_of (js_or_else (youtubeSearchQueries generatedContent) []) in
        let* t := now in
        let content_ :=
          {| tc_generated := generatedContent;
             youtubeVideos := youtubeVideos_;
             tc_topic := tb_topic b;
             tc_moduleId := tb_moduleId b;
             tc_moduleTitle := tb_moduleTitle b;
             tc_difficulty := tb_difficulty b;
             generatedAt := t |} in
        kv_set contentKey content_ ;;
        json (PContent content_) 200
      end
    end
  end.

End Handlers.

(** ** Running requests one after the other *)

(** The final world of a run of POST /progress requests. *)
Definition run_progress (E : Environment) (rs : list (Request ProgressBody))
    (w : World) : World :=
  fold_left (fun w r => snd (handle (post_progress E r) w)) rs w.

(** The final world of a run of POST /achievements requests. *)
Definition run_achievements (rs : list (Request AchievementBody))
    (w : World) : World :=
  fold_left (fun w r => snd (handle (post_achievements r) w)) rs w.

(** The final world of a run of POST /chat requests. *)
Definition run_chat (E : Environment) (rs : list (Request ChatBody))
    (w : World) : World :=
  fold_left (fun w r => snd (handle (post_chat E r) w)) rs w.

(** An authenticated request with a parsed body. *)
Definition authed {B} (u : User) (b : B) : Request B :=
  {| auth := Some u; body := Some b |}.

(** The record an authenticated update with body [b] is merged into:
    [await kv.get(progressKey) || {}]. *)
Definition existing_progress (u : User) (b : ProgressBody) (w : World) : Progress :=
  js_or_else (progress (kv w) !! progress_key u (b_moduleId b)) empty_progress.

(** The cumulative time stored for a progress key, 0 when nothing is stored. *)
Definition stored_time (key : string) (w : World) : Z :=
  js_or_else (progress (kv w) !! key ≫= timeSpent) 0.

(** The sum of the submitted deltas, a missing delta counting as 0. *)
Definition sum_deltas (bs : list ProgressBody) : Z :=
  foldr (fun b acc => default 0 (b_timeSpent b) + acc) 0 bs.

(** The achievements of a user as GET /achievements reports them:
    [await kv.get(`achievements:${user.id}`) || { unlocked: [], xp: 0, level: 1, streak: 0 }]. *)
Definition current_achievements (u : User) (w : World) : Achievements :=
  js_or_else (achievements (kv w) !! achievements_key u) initial_achievements.

Definition level_matches_xp (a : Achievements) : Prop :=
  level a = js_level (xp a).

(** The sum of the magnitudes of the submitted deltas. *)
Definition sum_abs (bs : list ProgressBody) : Z :=
  foldr (fun b acc => Z.abs (default 0 (b_timeSpent b)) + acc) 0 bs.

(** The request, when it has a body, carries an [achievementId]. *)
Definition carries_id (r : Request AchievementBody) : Prop :=
  forall b, body r = Some b -> is_Some (achievementId b).

(** The request, when it has a body, carries a numeric [xp]. *)
Definition carries_xp (r : Request AchievementBody) : Prop :=
  forall b, body r = Some b -> is_Some (b_xp b).

(** The sum of the magnitudes of the submitted [xp] amounts. *)
Definition sum_xp_abs (rs : list (Request AchievementBody)) : Z :=
  foldr (fun r acc => Z.abs (default 0 (body r ≫= b_xp)) + acc) 0 rs.

(** The string ids of an unlocked list, its null entries left out. *)
Definition string_ids (unlocked : list (option string)) : list string :=
  omap id unlocked.

(** The [n] most recent entries of a history. *)
Definition last_entries (n : nat) (h : list ChatMessage) : list ChatMessage :=
  drop (length h - n) h.

(** Every stored chat history has at most 50 entries. *)
Definition histories_capped (w : World) : Prop :=
  map_Forall (fun _ h => (length h <= 50)%nat) (chats (kv w)).

(** The two entries a successful chat call appends, given the clock reading
    index at which the handler stamps them. *)
Definition exchange (E : Environment) (b : ChatBody) (reply : option string)
    (w : World) : list ChatMessage :=
  [ {| role := "user"; content := message b;
       timestamp := Some (clock E (ticks w)) |};
    {| role := "assistant"; content := reply;
       timestamp := Some (clock E (S (ticks w))) |} ].

(** The profile's target goal contains the text "Data Scientist". *)
Definition wants_data_science (p : Profile) : bool :=
  match pf_targetGoal p with
  | Some goal => includes "Data Scientist" goal
  | None => false
  end.

(** The template the specification names for a profile. *)
Definition expected_template (p : Profile) : Template :=
  if wants_data_science p then data_scientist_template else full_stack_template.

(** ** A sample deployment

    Concrete inputs on which the handlers are evaluated below. *)

Module Sample.

Definition readings (n : nat) : string :=
  match n with
  | 0%nat => "2024-01-01T09:00:00.000Z"
  | 1%nat => "2024-01-01T09:00:00.001Z"
  | 2%nat => "2024-02-01T10:30:00.000Z"
  | 3%nat => "2024-02-01T10:30:00.001Z"
  | _ => "2024-03-01T12:00:00.000Z"
  end.

(** No provider key configured. *)
Definition env : Environment :=
  {| OPENAI_API_KEY := None; HF_TOKEN := None; clock := readings;
     provider := fun _ => FetchFailed "TypeError: fetch failed";
     json_parses := fun _ => false; parse_generated := fun _ => None;
     encodeURIComponent := fun q => Some q |}.

(** The OpenAI key configured, the provider answering every call with a
    short message. *)
Definition env_ai : Environment :=
  {| OPENAI_API_KEY := Some "sk-test"; HF_TOKEN := None; clock := readings;
     provider := fun _ => Ok2xx (Message (Some "Start with the basics."));
     json_parses := fun _ => false; parse_generated := fun _ => None;
     encodeURIComponent := fun q => Some q |}.

(** The HuggingFace token configured, the provider answering every call
    with plain text. *)
Definition env_hf : Environment :=
  {| OPENAI_API_KEY := None; HF_TOKEN := Some "hf-test"; clock := readings;
     provider := fun _ => Ok2xx (Message (Some "Closures capture variables."));
     json_parses := fun _ => false; parse_generated := fun _ => None;
     encodeURIComponent := fun q => Some q |}.

Definition start : World := {| kv := empty_store; ticks := 0; sent := [] |}.

Definition alice : User :=
  {| user_id := "7f3c"; user_email := "alice@example.org"; user_name := "Alice" |}.

Definition update (st : option string) (t score : option Z) (n : option string)
    : ProgressBody :=
  {| b_moduleId := Some "m1"; b_status := st; b_timeSpent := t;
     b_performanceScore := score; b_notes := n; b_completedTopics := None |}.

(** [{moduleId: "m1", status: "completed", timeSpent: 30, performanceScore: 80, notes: "draft"}] *)
Definition first_update : ProgressBody :=
  update (Some "completed") (Some 30) (Some 80) (Some "draft").

(** [{moduleId: "m1", timeSpent: 15}] *)
Definition second_update : ProgressBody := update None (Some 15) None None.

(** [{moduleId: "m1", status: "completed"}] *)
Definition completed_again : ProgressBody := update (Some "completed") None None None.

(** [{moduleId: "m1", performanceScore: 0, notes: ""}] *)
Definition zero_score : ProgressBody := update None None (Some 0) (Some "").

Definition m1_key : string := progress_key alice (Some "m1").

(** The onboarding form Alice submits. *)
Definition onboarding : ProfileBody :=
  {| pb_background := Some "Physics"; pb_currentRole := Some "Analyst";
     pb_yearsOfExperience := Some 2; pb_knownSkills := Some ["SQL"];
     pb_targetGoal := Some "Senior Data Scientist";
     pb_preferredLanguage := Some "Python"; pb_learningPace := Some "steady";
     pb_hoursPerWeek := Some 6; pb_learningStyle := Some "visual";
     pb_onboardingComplete := Some true |}.

(** The world after Alice's onboarding, and the profile it stored. *)
Definition onboarded : World :=
  snd (handle (post_profile env (authed alice onboarding)) start).

Definition alice_profile : Profile :=
  {| pf_userId := "7f3c"; pf_email := "alice@example.org"; pf_name := "Alice";
     pf_background := Some "Physics"; pf_currentRole := Some "Analyst";
     pf_yearsOfExperience := Some 2; pf_knownSkills := ["SQL"];
     pf_targetGoal := Some "Senior Data Scientist";
     pf_preferredLanguage := Some "Python"; pf_learningPace := Some "steady";
     pf_hoursPerWeek := Some 6; pf_learningStyle := Some "visual";
     pf_onboardingComplete := true;
     pf_createdAt := "2024-01-01T09:00:00.000Z";
     pf_updatedAt := "2024-01-01T09:00:00.001Z" |}.

(** [{moduleId: "m1", moduleTitle: "JavaScript", topic: "Closures",
      difficulty: "beginner", targetGoal: "Full-Stack Developer"}] *)
Definition closures : TopicBody :=
  {| tb_moduleId := Some "m1"; tb_moduleTitle := Some "JavaScript";
     tb_topic := Some "Closures"; tb_difficulty := Some "beginner";
     tb_targetGoal := Some "Full-Stack Developer" |}.

Definition lesson : TopicContent :=
  {| tc_generated :=
       {| explanation := Some "A closure is a function with its scope.";
          keyPoints := ["Lexical scope"]; applications := ["Callbacks"];
          pitfalls := ["Loops"]; practiceIdeas := ["Write a counter"];
          youtubeSearchQueries := Some ["closures explained"] |};
     youtubeVideos :=
       [ {| v_title := "closures explained";
            searchUrl := "https://www.youtube.com/results?search_query=closures%20explained";
            embedQuery := "closures explained" |} ];
     tc_topic := Some "Closures"; tc_moduleId := Some "m1";
     tc_moduleTitle := Some "JavaScript"; tc_difficulty := Some "beginner";
     generatedAt := "2023-12-31T18:00:00.000Z" |}.

(** A store that already holds the lesson on closures for Alice. *)
Definition cached : World :=
  {| kv := store_set (content_key alice closures) lesson empty_store;
     ticks := 0; sent := [] |}.

(** [{message: "Where do I start?"}] *)
Definition question : ChatBody :=
  {| message := Some "Where do I start?"; conversationHistory := None |}.

(** [{achievementId: "first-module", xp: 1500}] *)
Definition first_module : AchievementBody :=
  {| achievementId := Some "first-module"; b_xp := Some 1500 |}.

End Sample.

(** ** The read endpoints

    The GET handlers only read the store; each is a function of the verified
    user and the world. *)

Inductive GetPayload :=
| GError (msg : string)                          (* { error } *)
| GProfile (p : Profile)                         (* { profile } *)
| GProfileStub (userId email name : string)      (* { profile: { userId, email, name, onboardingComplete: false } } *)
| GRoadmap (r : option Roadmap)                  (* { roadmap }, null when none *)
| GProgress (items : list Progress)              (* { progress } *)
| GContent (c : option TopicContent)             (* { content }, null when none *)
| GHistory (h : list ChatMessage)                (* { history } *)
| GAchievements (a : Achievements).              (* { achievements } *)

Record GetResponse := { g_code : nat; g_payload : GetPayload }.

Definition get_unauthorized : GetResponse :=
  {| g_code := 401; g_payload := GError "Unauthorized" |}.

(** Modelled from the spec: [kv.getByPrefix(prefix)] of the absent
    [kv_store.tsx], "prefix scans": the values stored under the keys that
    start with the prefix, in no particular order. *)
Definition store_get_by_prefix {T} `{Stored T} (prefix : string) (s : Store) : list T :=
  (map_to_list
     (filter (fun kv : string * T => String.prefix prefix kv.1 = true) (table s))).*2.

(** GET /profile *)
Definition get_profile (a : option User) (w : World) : GetResponse :=
  match a with
  | None => get_unauthorized
  | Some user =>
    match store_get (profile_key user) (kv w) with
    | None =>
      {| g_code := 200;
         g_payload := GProfileStub (user_id user) (user_email user) (user_name user) |}
    | Some profile => {| g_code := 200; g_payload := GProfile profile |}
    end
  end.

(** GET /roadmap *)
Definition get_roadmap (a : option User) (w : World) : GetResponse :=
  match a with
  | None => get_unauthorized
  | Some user =>
    {| g_code := 200; g_payload := GRoadmap (store_get (roadmap_key user) (kv w)) |}
  end.

(** GET /progress *)
Definition get_progress (a : option User) (w : World) : GetResponse :=
  match a with
  | None => get_unauthorized
  | Some user =>
    {| g_code := 200;
       g_payload := GProgress (store_get_by_prefix
                                 ("progress:" +:+ user_id user +:+ ":") (kv w)) |}
  end.

(** GET /topic-content/:moduleId/:topic; the route parameters are strings. *)
Definition get_topic_content (a : option User) (moduleId topic : string)
    (w : World) : GetResponse :=
  match a with
  | None => get_unauthorized
  | Some user =>
    let contentKey :=
      "topic-content:" +:+ user_id user +:+ ":" +:+ moduleId +:+ ":" +:+ topic in
    {| g_code := 200; g_payload := GContent (store_get contentKey (kv w)) |}
  end.

(** GET /chat/history *)
Definition get_chat_history (a : option User) (w : World) : GetResponse :=
  match a with
  | None => get_unauthorized
  | Some user =>
    {| g_code := 200;
       g_payload := GHistory (js_or_else (store_get (chat_key user) (kv w)) []) |}
  end.

(** GET /achievements *)
Definition get_achievements (a : option User) (w : World) : GetResponse :=
  match a with
  | None => get_unauthorized
  | Some user =>
    {| g_code := 200;
       g_payload := GAchievements
                      (js_or_else (store_get (achievements_key user) (kv w))
                                  initial_achievements) |}
  end.

(** ** Bearer tokens *)

(** [s.split(c)] for a one-character separator. *)
Fixpoint split_on (c : ascii) (s : string) : list string :=
  match s with
  | EmptyString => [EmptyString]
  | String d s' =>
    if Ascii.eqb d c then EmptyString :: split_on c s'
    else match split_on c s' with
         | piece :: pieces => String d piece :: pieces
         | [] => [String d EmptyString]
         end
  end.

(** [authHeader.split(' ')[1]] *)
Definition bearer_token (authHeader : string) : option string :=
  split_on " "%char authHeader !! 1%nat.

(** [verifyAuth]. [getUser] stands for [supabase.auth.getUser(token)]
    reduced to what the function keeps of it: the user, or none when the
    provider reports an error or no user. *)
Definition verifyAuth (getUser : option string -> option User)
    (authHeader : option string) : option User :=
  match authHeader with
  | None => None
  | Some h => if truthy h then getUser (bearer_token h) else None
  end.

(** The [Authorization] header of the client wrapper:
    [`Bearer ${token || publicAnonKey}`]. *)
Definition authorization_header (publicAnonKey : string) (token : option string)
    : string :=
  "Bearer " +:+ js_or_else token publicAnonKey.

(** No character of the string is [c]. *)
Fixpoint free_of (c : ascii) (s : string) : bool :=
  match s with
  | EmptyString => true
  | String d s' => negb (Ascii.eqb d c) && free_of c s'
  end.

(** ** The client wrapper [utils/api.ts] *)

Record ApiOptions (B : Type) := {
  o_method : option string;
  o_body : option B;
  o_token : option string
}.
Arguments o_method {B} _.
Arguments o_body {B} _.
Arguments o_token {B} _.

(** What [apiCall] hands to [fetch]; the body is the value given to
    [JSON.stringify]. *)
Record HttpRequest (B : Type) := {
  rq_url : string;
  rq_method : string;
  rq_headers : list (string * string);
  rq_body : option B
}.
Arguments rq_url {B} _.
Arguments rq_method {B} _.
Arguments rq_headers {B} _.
Arguments rq_body {B} _.

(** What comes back: [fetch] rejects, or a response with its [ok] flag, its
    status as printed and the result of [response.json()] (none when it
    rejects). *)
Inductive Transport (D : Type) :=
| Rejected (err : string)
| Replied (ok : bool) (status : string) (data : option D).
Arguments Rejected {D} err.
Arguments Replied {D} ok status data.

Section ClientWrapper.

Context {B D : Type} `{Truthy B}.
(* [projectId] and [publicAnonKey] of the absent [./supabase/info] *)
Context (projectId publicAnonKey : string).
(* [data.error] of a parsed response body *)
Context (error_of : D -> option string).

Definition API_BASE : string :=
  "https://" +:+ projectId +:+ ".supabase.co/functions/v1/make-server-2ba89cfc".

(** The request [apiCall] builds from its arguments. *)
Definition api_request (endpoint : string) (options : ApiOptions B) : HttpRequest B :=
  let method := default "GET" (o_method options) in
  {| rq_url := API_BASE +:+ endpoint;
     rq_method := method;
     rq_headers :=
       [ ("Content-Type", "application/json");
         ("Authorization", authorization_header publicAnonKey (o_token options)) ];
     rq_body :=
       if truthy (o_body options) && negb (String.eqb method "GET")
       then o_body options else None |}.

(** [apiCall]: the data of a successful call, or the message of the error
    it throws. *)
Definition apiCall (send : HttpRequest B -> Transport D) (endpoint : string)
    (options : ApiOptions B) : string + D :=
  match send (api_request endpoint options) with
  | Rejected err => inl err
  | Replied ok status None => inl ("API request failed with status " +:+ status)
  | Replied ok status (Some data) =>
    if ok then inr data
    else inl (js_or_else (error_of data)
                         ("API request failed with status " +:+ status))
  end.

End ClientWrapper.

(** ** Account lifecycle: signup, reset-password, delete-user *)

(** A user record of the identity provider, as far as the handlers read it. *)
Record AuthUser := {
  au_id : string;
  au_email : option string;
  email_confirmed_at : option string
}.

(** Calls to [supabase.auth.admin]. *)
Inductive AdminCall :=
| ListUsers
| DeleteUser (id : string)
| CreateUser (email password name : string)
| UpdateUserById (id password : string).

(** The identity provider: the [{ data, error }] answer to the latest call of
    the admin call history. An error is its [message]. *)
Record IdentityProvider := {
  listUsers : list AdminCall -> string + list AuthUser;
  createUser : list AdminCall -> string + AuthUser;
  deleteUser : list AdminCall -> option string;
  updateUserById : list AdminCall -> option string
}.

Inductive AccountPayload :=
| AError (msg : string)             (* { error } *)
| AUserExists (msg : string)        (* { error, userExists: true, needsLogin: true } *)
| ACreated (user : AuthUser)        (* { success: true, user } *)
| ADone (msg : string).             (* { success: true, message } *)

Record AccountResponse := { a_code : nat; a_payload : AccountPayload }.

Record SignupBody := {
  sb_email : option string;
  sb_password : option string;
  sb_name : option string
}.

Record ResetBody := { rb_email : option string; rb_newPassword : option string }.

Record DeleteBody := { db_email : option string }.

(** [users.find(u => u.email === email)] *)
Definition find_by_email (email : string) (users : list AuthUser) : option AuthUser :=
  List.find (fun u => bool_decide (au_email u = Some email)) users.

Section AccountHandlers.

Context (P : IdentityProvider).

(** POST /signup. The handler returns its response and the admin calls made
    so far. *)
Definition signup (body : option SignupBody) (calls : list AdminCall)
    : AccountResponse * list AdminCall :=
  match body with
  | None => ({| a_code := 400; a_payload := AError "Invalid request body" |}, calls)
  | Some b =>
    match configured (sb_email b), configured (sb_password b), configured (sb_name b) with
    | Some email, Some password, Some name =>
      let calls1 := (calls ++ [ListUsers])%list in
      let existingUser :=
        match listUsers P calls1 with
        | inr users => find_by_email email users
        | inl _ => None
        end in
      let create (calls2 : list AdminCall) :=
        let calls3 := (calls2 ++ [CreateUser email password name])%list in
        match createUser P calls3 with
        | inl msg =>
          if includes "already registered" msg then
            ({| a_code := 400;
                a_payload := AUserExists "This email is already registered. Please try signing in instead." |},
             calls3)
          else ({| a_code := 400; a_payload := AError msg |}, calls3)
        | inr user => ({| a_code := 200; a_payload := ACreated user |}, calls3)
        end in
      match existingUser with
      | Some u =>
        if truthy (email_confirmed_at u) then
          ({| a_code := 400;
              a_payload := AUserExists "A user with this email already exists. Please sign in instead." |},
           calls1)
        else create (calls1 ++ [DeleteUser (au_id u)])%list
      | None => create calls1
      end
    | _, _, _ =>
      ({| a_code := 400; a_payload := AError "Email, password, and name are required" |},
       calls)
    end
  end.

(** The lookup shared by reset-password and delete-user: list the users and
    find the one with the email, or answer 500 / 404. *)
Definition locate (email : string) (calls1 : list AdminCall)
    : AccountResponse + AuthUser :=
  match listUsers P calls1 with
  | inl _ => inl {| a_code := 500; a_payload := AError "Failed to find user" |}
  | inr users =>
    match find_by_email email users with
    | None => inl {| a_code := 404;
                     a_payload := AError "No user found with this email address" |}
    | Some user => inr user
    end
  end.

(** POST /reset-password *)
Definition reset_password (body : option ResetBody) (calls : list AdminCall)
    : AccountResponse * list AdminCall :=
  match body with
  | None =>
    ({| a_code := 500; a_payload := AError "SyntaxError: Unexpected end of JSON input" |},
     calls)
  | Some b =>
    match configured (rb_email b), configured (rb_newPassword b) with
    | Some email, Some newPassword =>
      let calls1 := (calls ++ [ListUsers])%list in
      match locate email calls1 with
      | inl failure => (failure, calls1)
      | inr user =>
        let calls2 := (calls1 ++ [UpdateUserById (au_id user) newPassword])%list in
        match updateUserById P calls2 with
        | Some msg => ({| a_code := 400; a_payload := AError msg |}, calls2)
        | None =>
          ({| a_code := 200; a_payload := ADone "Password has been reset successfully" |},
           calls2)
        end
      end
    | _, _ =>
      ({| a_code := 400; a_payload := AError "Email and new password are required" |},
       calls)
    end
  end.

(** POST /delete-user *)
Definition delete_user (body : option DeleteBody) (calls : list AdminCall)
    : AccountResponse * list AdminCall :=
  match body with
  | None =>
    ({| a_code := 500; a_payload := AError "SyntaxError: Unexpected end of JSON input" |},
     calls)
  | Some b =>
    match configured (db_email b) with
    | Some email =>
      let calls1 := (calls ++ [ListUsers])%list in
      match locate email calls1 with
      | inl failure => (failure, calls1)
      | inr user =>
        let calls2 := (calls1 ++ [DeleteUser (au_id user)])%list in
        match deleteUser P calls2 with
        | Some msg => ({| a_code := 400; a_payload := AError msg |}, calls2)
        | None =>
          ({| a_code := 200;
              a_payload := ADone "User account has been deleted successfully" |},
           calls2)
        end
      end
    | None => ({| a_code := 400; a_payload := AError "Email is required" |}, calls)
    end
  end.

End AccountHandlers.

(** What POST /signup answers to the outcome of its [createUser] call. *)
Definition creation_answer (outcome : string + AuthUser) : AccountResponse :=
  match outcome with
  | inl msg =>
    if includes "already registered" msg then
      {| a_code := 400;
         a_payload := AUserExists "This email is already registered. Please try signing in instead." |}
    else {| a_code := 400; a_payload := AError msg |}
  | inr user => {| a_code := 200; a_payload := ACreated user |}
  end.

(** No account of the list has the email. *)
Definition none_with_email (email : string) (users : list AuthUser) : Prop :=
  Forall (fun v => au_email v <> Some email) users.


(** The call carries the configured key of the provider it goes to. *)
Definition uses_configured_key (E : Environment) (c : ProviderCall) : Prop :=
  match c with
  | OpenAIRoadmap key _ | OpenAIChat key _ _ _ =>
    configured (OPENAI_API_KEY E) = Some key
  | HFTopic key _ _ _ _ => configured (HF_TOKEN E) = Some key
  end.

(** What a handler run added to the provider log: at most one call, made
    with the configured key. *)
Definition one_keyed_call_at_most (E : Environment) (w w' : World) : Prop :=
  exists calls,
    sent w' = (sent w ++ calls)%list
    /\ (length calls <= 1)%nat
    /\ Forall (uses_configured_key E) calls.

(** The store of [w'] is the store of [w] except possibly for the record of
    type [T] under [key]. *)
Definition only_changed (T : Type) `{Stored T} (key : string) (w w' : World) : Prop :=
  exists t',
    kv w' = with_table t' (kv w)
    /\ forall k, k <> key -> t' !! k = table (kv w) !! k.

(** [w'] is the world after one POST request of the verified user [u]. *)
Inductive served (E : Environment) (u : User) (w : World) : World -> Prop :=
| served_profile b :
    served E u w (snd (handle (post_profile E {| auth := Some u; body := b |}) w))
| served_progress b :
    served E u w (snd (handle (post_progress E {| auth := Some u; body := b |}) w))
| served_achievements b :
    served E u w (snd (handle (post_achievements {| auth := Some u; body := b |}) w))
| served_chat b :
    served E u w (snd (handle (post_chat E {| auth := Some u; body := b |}) w))
| served_roadmap b :
    served E u w
      (snd (handle (post_generate_roadmap E {| auth := Some u; body := b |}) w))
| served_topic b :
    served E u w
      (snd (handle (post_generate_topic_content E {| auth := Some u; body := b |}) w)).

(** Every record kept for the user [u] is the same in [w] and [w']. *)
Definition same_records (u : User) (w w' : World) : Prop :=
  profiles (kv w') !! profile_key u = profiles (kv w) !! profile_key u
  /\ roadmaps (kv w') !! roadmap_key u = roadmaps (kv w) !! roadmap_key u
  /\ chats (kv w') !! chat_key u = chats (kv w) !! chat_key u
  /\ achievements (kv w') !! achievements_key u
     = achievements (kv w) !! achievements_key u
  /\ (forall m, progress (kv w') !! progress_key u m
                = progress (kv w) !! progress_key u m)
  /\ (forall b, topics (kv w') !! content_key u b
                = topics (kv w) !! content_key u b).

(** ** Further sample inputs *)

Module Cases.

Definition unauthorized : Response :=
  {| code := 401; payload := PError "Unauthorized" |}.

Definition bob : User :=
  {| user_id := "91ab"; user_email := "bob@example.org"; user_name := "Bob" |}.

(** [{achievementId: "first-module", xp: 900}]: the same id again with
    another amount. *)
Definition first_module_again : AchievementBody :=
  {| achievementId := Some "first-module"; b_xp := Some 900 |}.

(** [{achievementId: "week-streak", xp: 250}] *)
Definition week_streak : AchievementBody :=
  {| achievementId := Some "week-streak"; b_xp := Some 250 |}.

(** The empty body [{}]. *)
Definition empty_body : AchievementBody :=
  {| achievementId := None; b_xp := None |}.

(** [{achievementId: "no-amount"}] *)
Definition no_amount : AchievementBody :=
  {| achievementId := Some "no-amount"; b_xp := None |}.

(** [{moduleId: "m1", timeSpent: 9007199254740992}] and
    [{moduleId: "m1", timeSpent: 1}] *)
Definition huge_session : ProgressBody :=
  Sample.update None (Some 9007199254740992) None None.
Definition one_minute : ProgressBody :=
  Sample.update None (Some 1) None None.

(** The OpenAI key configured, the provider answering every call with a
    JSON text that parses. *)
Definition env_roadmap : Environment :=
  {| OPENAI_API_KEY := Some "sk-test"; HF_TOKEN := None;
     clock := Sample.readings;
     provider := fun _ => Ok2xx (Message (Some "{}"));
     json_parses := fun _ => true; parse_generated := fun _ => None;
     encodeURIComponent := fun q => Some q |}.

(** The OpenAI key configured, the network down. *)
Definition env_offline : Environment :=
  {| OPENAI_API_KEY := Some "sk-test"; HF_TOKEN := Some "hf-test";
     clock := Sample.readings;
     provider := fun _ => FetchFailed "TypeError: fetch failed";
     json_parses := fun _ => true; parse_generated := fun _ => None;
     encodeURIComponent := fun q => Some q |}.

Definition no_body : Request unit := {| auth := Some Sample.alice; body := None |}.

(** Both keys configured, the providers answering 503. *)
Definition env_busy : Environment :=
  {| OPENAI_API_KEY := Some "sk-test"; HF_TOKEN := Some "hf-test";
     clock := Sample.readings;
     provider := fun _ => NotOk "503" "Service Unavailable";
     json_parses := fun _ => true; parse_generated := fun _ => None;
     encodeURIComponent := fun q => Some q |}.

(** The data of a parsed response body of the backend, as far as the
    client wrapper looks into it: its [error] field. *)
Record ApiData := { d_error : option string; d_text : string }.

(** A backend that answers 401 with [{ error: "Unauthorized" }]. *)
Definition refusing (rq : HttpRequest string) : Transport ApiData :=
  Replied false "401" (Some {| d_error := Some "Unauthorized"; d_text := "" |}).

(** A backend that answers 200. *)
Definition serving (rq : HttpRequest string) : Transport ApiData :=
  Replied true "200" (Some {| d_error := None; d_text := "ok" |}).

(** The identity provider accepts one token. *)
Definition accept_alice (token : option string) : option User :=
  if bool_decide (token = Some "eyJhbGciOi.alice") then Some Sample.alice else None.

Definition carol : AuthUser :=
  {| au_id := "c-1"; au_email := Some "carol@example.org";
     email_confirmed_at := Some "2023-11-05T10:00:00Z" |}.

Definition dave : AuthUser :=
  {| au_id := "d-2"; au_email := Some "dave@example.org";
     email_confirmed_at := None |}.

(** An identity provider with Carol (confirmed) and Dave (not confirmed)
    registered, every admin call succeeding. *)
Definition registry : IdentityProvider :=
  {| listUsers := fun _ => inr [carol; dave];
     createUser := fun _ =>
       inr {| au_id := "n-3"; au_email := Some "dave@example.org";
              email_confirmed_at := Some "2024-01-01T09:00:00Z" |};
     deleteUser := fun _ => None;
     updateUserById := fun _ => None |}.

Definition signup_as (email : string) : SignupBody :=
  {| sb_email := Some email; sb_password := Some "s3cret!"; sb_name := Some "New" |}.

End Cases.

(** * Properties *)

(** ** Tactics and basic facts *)

(** Unfold one handler run down to its primitive steps. *)
Ltac run_handler :=
  unfold handle, bind, require_user, req_json, topic_json, kv_get, kv_set,
    json, throw, ret, now, fetch; cbn [auth body].

Lemma js_or_else_number (o : option Z) : js_or_else o 0 = default 0 o.
Proof.
  destruct o as [n|]; cbn; [|done].
  unfold truthy, truthy_Z. destruct (Z.eqb_spec n 0); cbn; congruence.
Qed.

(** Integers of magnitude at most 2^53 are doubles, and so are their sums
    within that range: the arithmetic is exact there. *)
Lemma round53_safe (z : Z) : Z.abs z <= 2 ^ 53 -> round53 z = Some z.
Proof.
  intros Hz. unfold round53.
  destruct (Z.leb_spec (Z.log2 (Z.abs z) - 52) 0) as [He|He]; [done|].
  assert (Habs : Z.abs z = 2 ^ 53).
  { assert (0 < Z.abs z) as Hpos.
    { destruct (Z.eq_dec (Z.abs z) 0) as [H0|H0]; [|lia].
      rewrite H0 in He. cbn in He. lia. }
    pose proof (Z.log2_spec _ Hpos) as [Hlo _].
    assert (2 ^ 53 <= 2 ^ Z.log2 (Z.abs z)).
    { apply Z.pow_le_mono_r; lia. }
    lia. }
  destruct (Z.abs_eq_cases z (2 ^ 53)) as [->| ->]; [lia | reflexivity..].
Qed.

Lemma js_plus_safe (a b : Z) :
  Z.abs a + Z.abs b <= 2 ^ 53 -> js_plus a b = Some (a + b).
Proof.
  intros Hab. assert (0 <= Z.abs a) by lia. assert (0 <= Z.abs b) by lia.
  unfold js_plus. by rewrite !round53_safe by lia.
Qed.

(** The floor of a quotient by 1000 survives rounding the quotient to a
    grid of step [1 / P] when the grid is finer than 1/500. *)
Lemma floor_of_rounded (x M P : Z) :
  500 < P -> Z.abs (1000 * M - x * P) <= 500 -> M / P = x / 1000.
Proof.
  intros HP Hclose.
  pose proof (Z.div_mod x 1000 ltac:(lia)) as Hx.
  pose proof (Z.mod_pos_bound x 1000 ltac:(lia)) as Hr.
  symmetry. apply (Z.div_unique_pos M P (x / 1000) (M - P * (x / 1000))); [|lia].
  nia.
Qed.

(** Within the safe-integer range [Math.floor(x / 1000)] is the exact floor
    of the quotient. *)
Lemma js_floor_div_safe (x : Z) :
  Z.abs x <= 2 ^ 53 -> js_floor_div x 1000 = x / 1000.
Proof.
  intros Hx. unfold js_floor_div.
  destruct (Z.eqb_spec x 0) as [->|Hx0]; [done|].
  change (Z.log2 1000) with 9.
  assert (0 < Z.abs x) as Ha by lia.
  set (k0 := Z.log2 (Z.abs x) - 9).
  set (k := if Z.abs x * 2 ^ Z.max 0 (- k0) <? 1000 * 2 ^ Z.max 0 k0
            then k0 - 1 else k0).
  assert (Hk : k <= 43).
  { assert (Z.log2 (Z.abs x) <= 53) as Hlog.
    { change 53 with (Z.log2 (2 ^ 53)). by apply Z.log2_le_mono. }
    destruct (Z.eq_dec (Z.log2 (Z.abs x)) 53) as [H53|H53].
    - pose proof (Z.log2_spec _ Ha) as [Hlo _]. rewrite H53 in Hlo.
      assert (Z.abs x = 2 ^ 53) as Heq by lia.
      subst k k0. rewrite Heq. reflexivity.
    - subst k. destruct (_ <? _); subst k0; lia. }
  clearbody k. clear k0.
  destruct (Z.leb_spec 0 (k - 52)) as [He|He]; [lia|].
  rewrite (Z.max_l 0 (k - 52)), (Z.max_r 0 (- (k - 52))) by lia.
  change (2 ^ 0) with 1. rewrite Z.mul_1_r.
  set (P := 2 ^ (- (k - 52))).
  assert (HP : 500 < P).
  { assert (2 ^ 9 <= P) by (apply Z.pow_le_mono_r; lia).
    change (2 ^ 9) with 512 in *. lia. }
  clearbody P.
  pose proof (Z.div_mod (Z.abs x * P) 1000 ltac:(lia)) as Hdm.
  pose proof (Z.mod_pos_bound (Z.abs x * P) 1000 ltac:(lia)) as Hr.
  set (q := Z.abs x * P / 1000) in *. set (r := (Z.abs x * P) mod 1000) in *.
  apply floor_of_rounded; [done|].
  assert (Z.sgn x = 1 \/ Z.sgn x = -1) as [Hs|Hs] by lia;
    rewrite Hs;
    (destruct (Z.ltb_spec (2 * r) 1000);
     [|destruct (Z.ltb_spec 1000 (2 * r)); [|destruct (Z.even q)]]);
    nia.
Qed.

Lemma js_level_safe (x : Z) :
  Z.abs x <= 2 ^ 53 -> js_level (Some x) = Some (x / 1000 + 1).
Proof.
  intros Hx. cbn [js_level]. rewrite (js_floor_div_safe x Hx).
  apply js_plus_safe.
  pose proof (Z.div_mod x 1000 ltac:(lia)) as Hdm.
  pose proof (Z.mod_pos_bound x 1000 ltac:(lia)) as Hr.
  change (2 ^ 53) with 9007199254740992 in *. lia.
Qed.

(** ** The handlers on concrete requests *)

(** The example of the specification: [{moduleId: "m1", status: "completed",
    timeSpent: 30, ..}] and then [{moduleId: "m1", timeSpent: 15}]. *)
Example progress_after_two_updates :
  progress (kv (run_progress Sample.env
                  [authed Sample.alice Sample.first_update;
                   authed Sample.alice Sample.second_update] Sample.start))
    !! Sample.m1_key
  = Some {| userId := Some "7f3c"; moduleId := Some "m1";
            status := Some "completed"; timeSpent := Some 45;
            performanceScore := Some 80; notes := Some "draft";
            completedTopics := Some [];
            lastUpdated := Some "2024-02-01T10:30:00.000Z";
            completedAt := Some "2024-01-01T09:00:00.001Z" |}.
Proof. reflexivity. Qed.

Example progress_unauthorized :
  handle (post_progress Sample.env
            {| auth := None; body := Some Sample.first_update |}) Sample.start
  = ({| code := 401; payload := PError "Unauthorized" |}, Sample.start).
Proof. reflexivity. Qed.

Example onboarding_stores_profile :
  profiles (kv Sample.onboarded) !! profile_key Sample.alice
  = Some Sample.alice_profile.
Proof. reflexivity. Qed.

Example includes_examples :
  includes "Data Scientist" "Senior Data Scientist" = true
  /\ includes "Data Scientist" "data scientist" = false
  /\ includes "Data Scientist" "Full-Stack Developer" = false.
Proof. repeat split. Qed.

Example json_match_examples :
  json_match "Here you go: {a: {b}} and } more" = Some "{a: {b}} and }"
  /\ json_match "} no opening {" = None
  /\ json_match "plain text" = None.
Proof. repeat split. Qed.

(** A miss with a configured token: the plain-text reply becomes the
    explanation, one search link per default query, and the content is
    stored under the topic key. *)
Example topic_generated_from_plain_text :
  let run := handle (post_generate_topic_content Sample.env_hf
                       (authed Sample.alice Sample.closures)) Sample.start in
  exists c,
    fst run = {| code := 200; payload := PContent c |}
    /\ topics (kv (snd run)) !! content_key Sample.alice Sample.closures = Some c
    /\ explanation (tc_generated c) = Some "Closures capture variables."
    /\ map v_title (youtubeVideos c)
       = ["Closures tutorial"; "Closures explained";
          "Closures Full-Stack Developer"]
    /\ sent (snd run)
       = [HFTopic "hf-test" (Some "Closures") (Some "JavaScript")
            (Some "beginner") (Some "Full-Stack Developer")].
Proof. eexists. repeat split. Qed.

(** A miss without a configured token. *)
Example topic_not_configured :
  handle (post_generate_topic_content Sample.env
            (authed Sample.alice Sample.closures)) Sample.start
  = ({| code := 500; payload := PConfigError hf_not_configured |}, Sample.start).
Proof. reflexivity. Qed.

(** ** POST /progress *)

Section ProgressProperties.

Context (E : Environment).

(** One authenticated update: it answers 200 with the merged record, which
    is also what the store holds under the progress key afterwards. *)
Lemma post_progress_step (u : User) (b : ProgressBody) (w : World) :
  exists p w',
    handle (post_progress E (authed u b)) w
      = ({| code := 200; payload := PProgress p |}, w')
    /\ progress (kv w') = <[progress_key u (b_moduleId b) := p]> (progress (kv w))
    /\ timeSpent p = js_plus (js_or_else (timeSpent (existing_progress u b w)) 0)
                             (js_or_else (b_timeSpent b) 0)
    /\ performanceScore p = js_or (b_performanceScore b)
                                  (performanceScore (existing_progress u b w))
    /\ notes p = js_or (b_notes b) (notes (existing_progress u b w))
    /\ completedTopics p
         = Some (js_or_else (js_or (b_completedTopics b)
                                   (completedTopics (existing_progress u b w))) [])
    /\ completedAt p
         = (if decide (b_status b = Some "completed")
            then Some (clock E (S (ticks w)))
            else completedAt (existing_progress u b w)).
Proof.
  unfold post_progress, merge_progress, existing_progress, authed. run_handler.
  unfold store_get. cbn [table stored_Progress].
  destruct (decide (b_status b = Some "completed")) as [Hc|Hc]; run_handler;
    eexists _, _; (split; [reflexivity|]); cbn; repeat split; reflexivity.
Qed.

(** The cumulative time under the key becomes the double sum of the stored
    total and the submitted delta. *)
Lemma stored_time_step (u : User) (b : ProgressBody) (w : World) :
  let key := progress_key u (b_moduleId b) in
  let w' := snd (handle (post_progress E (authed u b)) w) in
  progress (kv w') !! key ≫= timeSpent
    = js_plus (stored_time key w) (default 0 (b_timeSpent b)).
Proof.
  cbn zeta.
  destruct (post_progress_step u b w) as (p & w' & Hrun & Hkv & Ht & _).
  rewrite Hrun. cbn [snd]. rewrite Hkv, lookup_insert_eq. cbn.
  rewrite Ht. rewrite !js_or_else_number.
  unfold stored_time, existing_progress. rewrite js_or_else_number.
  by destruct (progress (kv w) !! _) as [q|].
Qed.

Lemma sum_deltas_bound (bs : list ProgressBody) :
  Z.abs (sum_deltas bs) <= sum_abs bs.
Proof.
  induction bs as [|b bs IH]; cbn; [lia|].
  fold (sum_deltas bs). fold (sum_abs bs). lia.
Qed.

Lemma sum_snoc (bs : list ProgressBody) (b : ProgressBody) :
  sum_deltas (bs ++ [b]) = sum_deltas bs + default 0 (b_timeSpent b)
  /\ sum_abs (bs ++ [b]) = sum_abs bs + Z.abs (default 0 (b_timeSpent b)).
Proof.
  induction bs as [|x bs [IH1 IH2]]; cbn; [lia|].
  fold (sum_deltas (bs ++ [b])). fold (sum_deltas bs).
  fold (sum_abs (bs ++ [b])). fold (sum_abs bs). lia.
Qed.

Lemma run_progress_time (u : User) (m : option string) (bs : list ProgressBody)
    (w : World) :
  Forall (fun b => b_moduleId b = m) bs ->
  Z.abs (stored_time (progress_key u m) w) + sum_abs bs <= 2 ^ 53 ->
  stored_time (progress_key u m) (run_progress E (map (authed u) bs) w)
    = stored_time (progress_key u m) w + sum_deltas bs.
Proof.
  intros Hm. revert w. induction Hm as [|b bs Hb _ IH]; intros w Hsafe.
  - cbn. lia.
  - cbn [map run_progress fold_left sum_deltas sum_abs foldr] in *.
    fold (run_progress E (map (authed u) bs)
            (snd (handle (post_progress E (authed u b)) w))).
    fold (sum_deltas bs). fold (sum_abs bs) in Hsafe.
    pose proof (sum_deltas_bound bs) as Hbound.
    pose proof (stored_time_step u b w) as Hs. cbn zeta in Hs. rewrite Hb in Hs.
    rewrite js_plus_safe in Hs by lia.
    assert (Hnext : stored_time (progress_key u m)
                      (snd (handle (post_progress E (authed u b)) w))
                    = stored_time (progress_key u m) w + default 0 (b_timeSpent b)).
    { unfold stored_time at 1. by rewrite Hs, js_or_else_number. }
    rewrite IH; rewrite Hnext; lia.
Qed.


(** C2, as the handler has it. An update that submits status "completed"
    stamps [completedAt] with the current time, also when it was already set;
    every other update leaves [completedAt] as stored. So a set [completedAt]
    is never removed. *)
Theorem C2_completedAt_stamped_on_completed_else_kept (u : User)
    (b : ProgressBody) (w : World) :
  exists p,
    progress (kv (snd (handle (post_progress E (authed u b)) w)))
      !! progress_key u (b_moduleId b) = Some p
    /\ (b_status b = Some "completed" ->
        completedAt p = Some (clock E (S (ticks w))))
    /\ (b_status b <> Some "completed" ->
        completedAt p = completedAt (existing_progress u b w))
    /\ (is_Some (completedAt (existing_progress u b w)) ->
        is_Some (completedAt p)).
Proof.
  destruct (post_progress_step u b w) as (p & w' & Hrun & Hkv & _ & _ & _ & _ & Hc).
  exists p. rewrite Hrun. cbn [snd]. rewrite Hkv, lookup_insert_eq.
  split; [done|]. rewrite Hc.
  destruct (decide (b_status b = Some "completed")); repeat split; done.
Qed.

(** What does hold of the three replaceable fields: a submitted truthy value
    replaces the stored one, and an absent one keeps it. *)
Lemma post_progress_replaceable_fields (u : User) (b : ProgressBody) (w : World) :
  exists p,
    progress (kv (snd (handle (post_progress E (authed u b)) w)))
      !! progress_key u (b_moduleId b) = Some p
    /\ (truthy (b_performanceScore b) = true ->
        performanceScore p = b_performanceScore b)
    /\ (b_performanceScore b = None ->
        performanceScore p = performanceScore (existing_progress u b w))
    /\ (truthy (b_notes b) = true -> notes p = b_notes b)
    /\ (b_notes b = None -> notes p = notes (existing_progress u b w))
    /\ (forall l, b_completedTopics b = Some l -> completedTopics p = Some l)
    /\ (b_completedTopics b = None ->
        completedTopics p
          = Some (default [] (completedTopics (existing_progress u b w)))).
Proof.
  destruct (post_progress_step u b w) as (p & w' & Hrun & Hkv & _ & Hs & Hn & Ht & _).
  exists p. rewrite Hrun. cbn [snd]. rewrite Hkv, lookup_insert_eq.
  split; [done|]. rewrite Hs, Hn, Ht. unfold js_or.
  repeat split.
  - by intros ->.
  - by intros ->.
  - by intros ->.
  - by intros ->.
  - by intros l ->.
  - intros ->. cbn. by destruct (completedTopics _).
Qed.

End ProgressProperties.



Lemma C2_witness :
  exists p,
    progress (kv (snd (handle (post_progress Sample.env
                                 (authed Sample.alice Sample.first_update))
                              Sample.start)))
      !! Sample.m1_key = Some p
    /\ completedAt p = Some "2024-01-01T09:00:00.001Z".
Proof.
  destruct (C2_completedAt_stamped_on_completed_else_kept Sample.env
              Sample.alice Sample.first_update Sample.start)
    as (p & Hp & Hc & _).
  exists p. split; [exact Hp|]. apply Hc. reflexivity.
Defined.

(** C2 as stated fails: a record completed at 09:00 on January 1 has its
    [completedAt] replaced when status "completed" is submitted again. *)
Lemma C2_counterexample :
  let w1 := run_progress Sample.env
              [authed Sample.alice Sample.first_update] Sample.start in
  let w2 := snd (handle (post_progress Sample.env
                           (authed Sample.alice Sample.completed_again)) w1) in
  progress (kv w1) !! Sample.m1_key ≫= completedAt
    = Some "2024-01-01T09:00:00.001Z"
  /\ progress (kv w2) !! Sample.m1_key ≫= completedAt
    = Some "2024-02-01T10:30:00.001Z"
  /\ progress (kv w2) !! Sample.m1_key ≫= completedAt
    <> progress (kv w1) !! Sample.m1_key ≫= completedAt.
Proof. vm_compute. repeat split; congruence. Qed.

(** C8 at a submitted score of 0 and submitted empty notes: both are
    provided in the body, and the stored record keeps the prior score 80 and
    the prior notes. *)
Lemma C8_provided_zero_score_and_empty_notes_are_dropped :
  let w1 := run_progress Sample.env
              [authed Sample.alice Sample.first_update] Sample.start in
  let w2 := snd (handle (post_progress Sample.env
                           (authed Sample.alice Sample.zero_score)) w1) in
  b_performanceScore Sample.zero_score = Some 0
  /\ b_notes Sample.zero_score = Some ""
  /\ progress (kv w2) !! Sample.m1_key ≫= performanceScore = Some 80
  /\ progress (kv w2) !! Sample.m1_key ≫= notes = Some "draft".
Proof. vm_compute. repeat split. Qed.

(** ** POST /achievements *)

Section AchievementProperties.

Lemma includes_id_true (l : list (option string)) (o : option string) :
  includes_id l o = true <-> exists id, o = Some id /\ Some id ∈ l.
Proof.
  destruct o as [id|]; cbn.
  - rewrite bool_decide_eq_true. split; [by exists id|]. by intros (? & [= <-] & ?).
  - split; [done|]. by intros (? & ? & _).
Qed.

Lemma unlock_records_id (a : Achievements) (b : AchievementBody) (id : string) :
  achievementId b = Some id -> Some id ∈ unlocked (unlock a b).
Proof.
  intros Hid. unfold unlock.
  destruct (includes_id (unlocked a) (achievementId b)) eqn:Hin.
  - apply includes_id_true in Hin as (id' & Hid' & Hin). congruence.
  - cbn. rewrite Hid. apply elem_of_app. right. by apply list_elem_of_singleton.
Qed.

Lemma unlock_present (a : Achievements) (b : AchievementBody) (id : string) :
  achievementId b = Some id -> Some id ∈ unlocked a -> unlock a b = a.
Proof.
  intros Hid Hin. unfold unlock.
  by rewrite (proj2 (includes_id_true _ _) (ex_intro _ id (conj Hid Hin))).
Qed.

Lemma unlock_twice (a : Achievements) (b : AchievementBody) :
  is_Some (achievementId b) -> unlock (unlock a b) b = unlock a b.
Proof.
  intros [id Hid]. apply (unlock_present _ _ id Hid), unlock_records_id, Hid.
Qed.

Lemma unlock_level (a : Achievements) (b : AchievementBody) :
  level_matches_xp a -> level_matches_xp (unlock a b).
Proof.
  unfold unlock. by destruct (includes_id (unlocked a) (achievementId b)).
Qed.

(** One authenticated update stores and returns [unlock] of the current
    achievements. *)
Lemma post_achievements_step (u : User) (b : AchievementBody) (w : World) :
  handle (post_achievements (authed u b)) w
    = ({| code := 200;
          payload := PAchievements (unlock (current_achievements u w) b) |},
       with_kv (store_set (achievements_key u)
                  (unlock (current_achievements u w) b) (kv w)) w).
Proof. reflexivity. Qed.

Lemma store_set_same_achievements (k : string) (a : Achievements) (s : Store) :
  achievements s !! k = Some a -> store_set k a s = s.
Proof.
  intros Hk. unfold store_set. cbn. rewrite insert_id by done. by destruct s.
Qed.

Lemma post_achievements_current (u : User) (b : AchievementBody) (w : World) :
  current_achievements u (snd (handle (post_achievements (authed u b)) w))
    = unlock (current_achievements u w) b.
Proof.
  rewrite post_achievements_step. cbn [snd]. unfold current_achievements at 1.
  cbn. by rewrite lookup_insert_eq.
Qed.

(** C3. For a request whose body carries an [achievementId], submitting
    the same POST /achievements request a second time returns the response
    of the first and leaves the world the first produced: [unlocked], [xp]
    and [level] are those of a single submission. When the id is already in
    the stored [unlocked] list, the call returns the stored state and the
    store is unchanged. *)
Theorem C3_unlock_is_idempotent (r : Request AchievementBody) (w : World) :
  (forall b, body r = Some b -> is_Some (achievementId b)) ->
  handle (post_achievements r) (snd (handle (post_achievements r) w))
    = handle (post_achievements r) w
  /\ (forall u b a id,
        r = authed u b ->
        achievements (kv w) !! achievements_key u = Some a ->
        achievementId b = Some id ->
        Some id ∈ unlocked a ->
        handle (post_achievements r) w
          = ({| code := 200; payload := PAchievements a |}, w)).
Proof.
  intros Hcarries. split.
  - destruct r as [[u|] [b|]]; try reflexivity.
    specialize (Hcarries b eq_refl). fold (authed u b).
    rewrite (post_achievements_step u b (snd _)), post_achievements_current.
    rewrite (unlock_twice _ _ Hcarries), (post_achievements_step u b w).
    cbn [snd]. f_equal. unfold with_kv. cbn [kv ticks sent]. f_equal.
    apply store_set_same_achievements. unfold store_set. cbn.
    apply lookup_insert_eq.
  - intros u b a id -> Ha Hid Hin. rewrite post_achievements_step.
    unfold current_achievements. rewrite Ha. cbn [js_or_else truthy truthy_Achievements].
    rewrite (unlock_present a b id Hid Hin), (store_set_same_achievements _ _ _ Ha).
    by destruct w.
Qed.

(** Whatever the request, the invariant of a user's current achievements
    survives it. *)
Lemma post_achievements_keeps_level (r : Request AchievementBody) (u : User)
    (w : World) :
  level_matches_xp (current_achievements u w) ->
  level_matches_xp
    (current_achievements u (snd (handle (post_achievements r) w))).
Proof.
  intros Hinv. destruct r as [[u'|] [b|]]; try exact Hinv.
  fold (authed u' b). rewrite post_achievements_step. cbn [snd].
  unfold current_achievements at 1. cbn.
  destruct (decide (achievements_key u' = achievements_key u)) as [Heq|Hne].
  - rewrite Heq, lookup_insert_eq. cbn. apply unlock_level.
    unfold current_achievements in *. by rewrite Heq.
  - by rewrite lookup_insert_ne.
Qed.

(** What one request does to a user's current achievements: nothing, or
    [unlock] with the body it carries. *)
Lemma post_achievements_applies (r : Request AchievementBody) (u : User)
    (w : World) :
  let a := current_achievements u w in
  let a' := current_achievements u (snd (handle (post_achievements r) w)) in
  a' = a \/ exists b, body r = Some b /\ a' = unlock a b.
Proof.
  cbn zeta. destruct r as [[u'|] [b|]]; try by left.
  fold (authed u' b).
  remember (current_achievements u (snd (handle (post_achievements (authed u' b)) w)))
    as a' eqn:Ha'.
  rewrite post_achievements_step in Ha'. cbn [snd] in Ha'.
  unfold current_achievements in Ha' at 1. cbn in Ha'.
  destruct (decide (achievements_key u' = achievements_key u)) as [Heq|Hne].
  - right. exists b. split; [done|].
    rewrite Heq, lookup_insert_eq in Ha'. cbn in Ha'.
    subst a'. unfold current_achievements. by rewrite Heq.
  - left. by rewrite lookup_insert_ne in Ha'.
Qed.

(** As long as every update carries a numeric [xp] and the magnitudes stay
    within 2^53 in total, the stored [xp] is a number in that range. *)
Lemma run_achievements_numeric (rs : list (Request AchievementBody)) (u : User)
    (w : World) (x0 : Z) :
  xp (current_achievements u w) = Some x0 ->
  Forall carries_xp rs ->
  Z.abs x0 + sum_xp_abs rs <= 2 ^ 53 ->
  exists x, xp (current_achievements u (run_achievements rs w)) = Some x
            /\ Z.abs x <= Z.abs x0 + sum_xp_abs rs.
Proof.
  intros Hx0 Hall. revert w x0 Hx0.
  induction Hall as [|r rs Hr _ IH]; intros w x0 Hx0 Hsafe.
  - exists x0. split; [exact Hx0|]. cbn. lia.
  - cbn [run_achievements fold_left sum_xp_abs foldr] in *.
    fold (run_achievements rs (snd (handle (post_achievements r) w))).
    fold (sum_xp_abs rs) in *.
    assert (Hrest : 0 <= sum_xp_abs rs).
    { clear. induction rs as [|r' rs IH']; cbn; [lia|]. fold (sum_xp_abs rs). lia. }
    assert (Hstep : exists x1,
              xp (current_achievements u (snd (handle (post_achievements r) w)))
                = Some x1
              /\ Z.abs x1 <= Z.abs x0 + Z.abs (default 0 (body r ≫= b_xp))).
    { destruct (post_achievements_applies r u w) as [->|(b & Hb & ->)].
      - exists x0. split; [exact Hx0|lia].
      - unfold unlock.
        destruct (includes_id _ _); [exists x0; split; [exact Hx0|lia]|].
        destruct (Hr b Hb) as [amount Hamount]. rewrite Hb in Hsafe |- *.
        cbn in Hsafe |- *. rewrite Hamount in Hsafe |- *. cbn in Hsafe |- *.
        rewrite Hx0. cbn. exists (x0 + amount).
        split; [apply js_plus_safe|]; lia. }
    destruct Hstep as (x1 & Hx1 & Hb1).
    destruct (IH _ x1 Hx1) as (x & Hx & Hb); [lia|].
    exists x. split; [exact Hx|lia].
Qed.


End AchievementProperties.

Lemma C3_witness :
  let w1 := snd (handle (post_achievements
                           (authed Sample.alice Sample.first_module))
                        Sample.start) in
  handle (post_achievements (authed Sample.alice Sample.first_module)) w1
    = ({| code := 200;
          payload := PAchievements
                       {| unlocked := [Some "first-module"]; xp := Some 1500;
                          level := Some 2; streak := 0 |} |}, w1).
Proof.
  intros w1.
  refine (proj2 (C3_unlock_is_idempotent
                   (authed Sample.alice Sample.first_module) w1 _)
                Sample.alice Sample.first_module _ "first-module"
                eq_refl _ eq_refl _).
  - intros b [= <-]. by eexists.
  - reflexivity.
  - cbn. apply list_elem_of_here.
Defined.



(** ** POST /chat *)

Section ChatProperties.

Context (E : Environment).

Lemma keep_last_50_is_last_entries (h : list ChatMessage) :
  keep_last_50 h = last_entries 50 h.
Proof.
  unfold keep_last_50, last_entries.
  destruct (Nat.ltb_spec 50 (length h)) as [Hlt|Hge]; [done|].
  replace (length h - 50)%nat with 0%nat by lia. done.
Qed.

Lemma last_entries_length (n : nat) (h : list ChatMessage) :
  (length (last_entries n h) <= n)%nat.
Proof. unfold last_entries. rewrite length_drop. lia. Qed.

Lemma last_entries_suffix (n : nat) (h : list ChatMessage) :
  h = (take (length h - n) h ++ last_entries n h)%list.
Proof. unfold last_entries. by rewrite take_drop. Qed.

(** A call that reaches the provider and gets a message back. *)
Lemma post_chat_success (u : User) (b : ChatBody) (w : World)
    (key : string) (reply : option string) :
  configured (OPENAI_API_KEY E) = Some key ->
  provider E (sent w ++ [OpenAIChat key (profiles (kv w) !! profile_key u)
                           (js_or_else (conversationHistory b) []) (message b)])
    = Ok2xx (Message reply) ->
  exists w',
    handle (post_chat E (authed u b)) w
      = ({| code := 200; payload := PChat reply |}, w')
    /\ chats (kv w')
       = <[chat_key u :=
             keep_last_50 (default [] (chats (kv w) !! chat_key u)
                           ++ exchange E b reply w)]> (chats (kv w)).
Proof.
  intros Hkey Hreply. unfold post_chat, authed. run_handler. rewrite Hkey.
  run_handler. unfold store_get. cbn [table stored_Profile kv sent].
  rewrite Hreply. cbn [first_content]. run_handler.
  eexists. split; [reflexivity|]. cbn.
  by destruct (chats (kv w) !! chat_key u).
Qed.

(** No request makes a stored history longer than 50 entries. *)
Lemma post_chat_keeps_cap (r : Request ChatBody) (w : World) :
  histories_capped w ->
  histories_capped (snd (handle (post_chat E r) w)).
Proof.
  intros Hcap. destruct r as [[u|] [b|]]; try exact Hcap.
  unfold post_chat. run_handler.
  destruct (configured (OPENAI_API_KEY E)) as [key|]; [|exact Hcap].
  run_handler. destruct (provider E _) as [e|st txt|[| | |reply]]; try exact Hcap.
  cbn [first_content]. run_handler. unfold histories_capped. cbn.
  apply map_Forall_insert_2; [|exact Hcap].
  rewrite keep_last_50_is_last_entries. apply last_entries_length.
Qed.

Lemma run_chat_keeps_cap (rs : list (Request ChatBody)) (w : World) :
  histories_capped w -> histories_capped (run_chat E rs w).
Proof.
  revert w. induction rs as [|r rs IH]; intros w Hcap; [exact Hcap|].
  cbn [run_chat fold_left]. apply IH. by apply post_chat_keeps_cap.
Qed.

(** C5. A successful POST /chat appends the timestamped user message and
    assistant reply to the stored history and persists the most recent 50
    entries of the result, dropping the oldest; and whatever requests are
    made, no stored history grows beyond 50 entries. *)
Theorem C5_chat_history_at_most_50 (u : User) (b : ChatBody) (w : World)
    (key : string) (reply : option string) (rs : list (Request ChatBody)) :
  configured (OPENAI_API_KEY E) = Some key ->
  provider E (sent w ++ [OpenAIChat key (profiles (kv w) !! profile_key u)
                           (js_or_else (conversationHistory b) []) (message b)])
    = Ok2xx (Message reply) ->
  histories_capped w ->
  let appended :=
    (default [] (chats (kv w) !! chat_key u) ++ exchange E b reply w)%list in
  let w' := snd (handle (post_chat E (authed u b)) w) in
  chats (kv w') !! chat_key u = Some (last_entries 50 appended)
  /\ (length (last_entries 50 appended) <= 50)%nat
  /\ (exists oldest, appended = (oldest ++ last_entries 50 appended)%list)
  /\ histories_capped (run_chat E rs w).
Proof.
  intros Hkey Hreply Hcap appended w'.
  destruct (post_chat_success u b w key reply Hkey Hreply) as (w1 & Hrun & Hkv).
  subst w'. rewrite Hrun. cbn [snd]. rewrite Hkv, lookup_insert_eq.
  rewrite keep_last_50_is_last_entries.
  split; [done|]. split; [apply last_entries_length|].
  split; [eexists; apply last_entries_suffix|].
  by apply run_chat_keeps_cap.
Qed.

(** C9. Without a configured OpenAI key POST /chat leaves the world as it
    found it, whoever asks: no record is written, no provider is called. An
    authenticated request with a parsed body is answered 200 with the canned
    setup message. *)
Theorem C9_chat_without_key_touches_nothing (r : Request ChatBody) (w : World) :
  configured (OPENAI_API_KEY E) = None ->
  snd (handle (post_chat E r) w) = w
  /\ (forall u b, r = authed u b ->
        fst (handle (post_chat E r) w)
          = {| code := 200; payload := PChatSetup chat_setup_message |}).
Proof.
  intros Hkey. split.
  - destruct r as [[u|] [b|]]; try reflexivity.
    unfold post_chat. run_handler. by rewrite Hkey.
  - intros u b ->. unfold post_chat, authed. run_handler. by rewrite Hkey.
Qed.

End ChatProperties.

Lemma C5_witness :
  chats (kv (snd (handle (post_chat Sample.env_ai
                            (authed Sample.alice Sample.question))
                         Sample.start)))
    !! chat_key Sample.alice
    = Some (last_entries 50
              (exchange Sample.env_ai Sample.question
                 (Some "Start with the basics.") Sample.start))
  /\ histories_capped
       (run_chat Sample.env_ai
          [authed Sample.alice Sample.question;
           authed Sample.alice Sample.question] Sample.start).
Proof.
  destruct (C5_chat_history_at_most_50 Sample.env_ai Sample.alice
              Sample.question Sample.start "sk-test"
              (Some "Start with the basics.")
              [authed Sample.alice Sample.question;
               authed Sample.alice Sample.question])
    as (Hstored & _ & _ & Hcap).
  - reflexivity.
  - reflexivity.
  - apply map_Forall_empty.
  - split; [exact Hstored | exact Hcap].
Defined.

Lemma C9_witness :
  handle (post_chat Sample.env (authed Sample.alice Sample.question))
         Sample.start
    = ({| code := 200; payload := PChatSetup chat_setup_message |},
       Sample.start).
Proof.
  destruct (C9_chat_without_key_touches_nothing Sample.env
              (authed Sample.alice Sample.question) Sample.start eq_refl)
    as [Hw Hr].
  specialize (Hr Sample.alice Sample.question eq_refl).
  rewrite (surjective_pairing (handle _ _)). by rewrite Hw, Hr.
Defined.

(** ** POST /generate-roadmap *)

Section RoadmapProperties.

Context (E : Environment).

Lemma prefix_spec (key s : string) :
  String.prefix key s = true <-> exists post, s = key +:+ post.
Proof.
  revert s. induction key as [|c key IH]; intros s.
  - split; [intros _; exists s; reflexivity | intros _; by destruct s].
  - destruct s as [|d s].
    + split; [done|]. intros [post Hpost]. discriminate Hpost.
    + cbn [String.prefix]. destruct (Ascii.ascii_dec c d) as [->|Hne].
      * rewrite IH. split; intros [post Hpost]; exists post.
        -- change (String d s = String d (key +:+ post)). by f_equal.
        -- change (String d s = String d (key +:+ post)) in Hpost. congruence.
      * split; [done|]. intros [post Hpost].
        change (String d s = String c (key +:+ post)) in Hpost. congruence.
Qed.

(** [includes] is the substring test. *)
Lemma includes_spec (key s : string) :
  includes key s = true <-> exists pre post, s = pre +:+ key +:+ post.
Proof.
  induction s as [|d s IH]; cbn [includes]; rewrite orb_true_iff, prefix_spec.
  - split.
    + intros [[post Hpost]|?]; [|done]. by exists EmptyString, post.
    + intros (pre & post & Heq). left. destruct pre; [by exists post|done].
  - rewrite IH. split.
    + intros [[post Hpost]|(pre & post & Heq)].
      * by exists EmptyString, post.
      * exists (String d pre), post.
        change (String d s = String d (pre +:+ key +:+ post)). by f_equal.
    + intros (pre & post & Heq). destruct pre as [|c pre].
      * left. by exists post.
      * right. exists pre, post.
        change (String d s = String c (pre +:+ key +:+ post)) in Heq. congruence.
Qed.

Lemma includes_nonempty (s : string) :
  includes "Data Scientist" s = true -> truthy s = true.
Proof. by destruct s. Qed.

(** The selection inside [generateTemplateRoadmap]. *)
Lemma template_selection (p : Profile) :
  let goal := js_or_else (pf_targetGoal p) "Full-Stack Developer" in
  template_at
    (js_or_else (List.find (fun key => includes key goal) (map fst templates))
                "Full-Stack Developer") templates
  = Some (expected_template p).
Proof.
  cbn zeta. unfold expected_template, wants_data_science.
  cbn [templates map fst List.find].
  destruct (pf_targetGoal p) as [g|]; cbn [js_or_else]; [|reflexivity].
  destruct (includes "Data Scientist" g) eqn:Hds.
  - rewrite (includes_nonempty g Hds), Hds. reflexivity.
  - destruct (truthy g).
    + rewrite Hds. by destruct (includes "Full-Stack Developer" g).
    + reflexivity.
Qed.

(** The fallback site: the template roadmap is stored under the user's
    roadmap key and returned. *)
Lemma answer_with_template_run (u : User) (p : Profile) (w : World) :
  exists r w',
    handle (answer_with_template E u p) w
      = ({| code := 200; payload := PRoadmap r |}, w')
    /\ roadmaps (kv w') = <[roadmap_key u := r]> (roadmaps (kv w))
    /\ rm_isTemplate r = true
    /\ rm_content r = FromTemplate (expected_template p)
    /\ rm_targetGoal r
       = Some (js_or_else (pf_targetGoal p) "Full-Stack Developer").
Proof.
  unfold answer_with_template, generateTemplateRoadmap. run_handler.
  rewrite (template_selection p). by eexists _, _.
Qed.

(** C6. For a user with a stored profile, when no OpenAI key is configured
    or the provider answers non-2xx, POST /generate-roadmap answers 200 with
    a template roadmap, stored under [roadmap:{userId}]: the "Data Scientist"
    template when the profile's [targetGoal] contains "Data Scientist", the
    "Full-Stack Developer" template otherwise. *)
Theorem C6_roadmap_falls_back_to_template (r : Request unit) (u : User)
    (p : Profile) (w : World) :
  auth r = Some u ->
  profiles (kv w) !! profile_key u = Some p ->
  (configured (OPENAI_API_KEY E) = None
   \/ exists key st txt,
        configured (OPENAI_API_KEY E) = Some key
        /\ provider E (sent w ++ [OpenAIRoadmap key p]) = NotOk st txt) ->
  exists roadmap w',
    handle (post_generate_roadmap E r) w
      = ({| code := 200; payload := PRoadmap roadmap |}, w')
    /\ roadmaps (kv w') !! roadmap_key u = Some roadmap
    /\ rm_isTemplate roadmap = true
    /\ rm_content roadmap
       = FromTemplate (if wants_data_science p then data_scientist_template
                       else full_stack_template).
Proof.
  intros Hauth Hprofile Hfallback.
  assert (Hsite : forall w0,
            exists roadmap w',
              handle (answer_with_template E u p) w0
                = ({| code := 200; payload := PRoadmap roadmap |}, w')
              /\ roadmaps (kv w') !! roadmap_key u = Some roadmap
              /\ rm_isTemplate roadmap = true
              /\ rm_content roadmap = FromTemplate (expected_template p)).
  { intros w0.
    destruct (answer_with_template_run u p w0) as (r0 & w' & Hrun & Hkv & Ht & Hc & _).
    exists r0, w'. rewrite Hkv, lookup_insert_eq. done. }
  destruct r as [a bd]. cbn in Hauth. subst a.
  unfold post_generate_roadmap. run_handler. unfold store_get.
  cbn [table stored_Profile]. rewrite Hprofile.
  destruct Hfallback as [Hnone|(key & st & txt & Hkey & Hreply)].
  - rewrite Hnone. apply (Hsite w).
  - rewrite Hkey. run_handler. cbn [kv sent]. rewrite Hreply.
    apply (Hsite {| kv := kv w; ticks := ticks w;
                    sent := sent w ++ [OpenAIRoadmap key p] |}).
Qed.

End RoadmapProperties.

Lemma C6_witness :
  exists roadmap w',
    handle (post_generate_roadmap Sample.env
              {| auth := Some Sample.alice; body := Some tt |}) Sample.onboarded
      = ({| code := 200; payload := PRoadmap roadmap |}, w')
    /\ roadmaps (kv w') !! roadmap_key Sample.alice = Some roadmap
    /\ rm_content roadmap = FromTemplate data_scientist_template.
Proof.
  destruct (C6_roadmap_falls_back_to_template Sample.env
              {| auth := Some Sample.alice; body := Some tt |}
              Sample.alice Sample.alice_profile Sample.onboarded)
    as (roadmap & w' & Hrun & Hkv & _ & Hcontent).
  - reflexivity.
  - reflexivity.
  - left. reflexivity.
  - exists roadmap, w'. repeat split; [exact Hrun | exact Hkv | exact Hcontent].
Defined.

(** ** POST /generate-topic-content *)

Section TopicProperties.

Context (E : Environment).

(** A cache hit: the stored content is returned as it is and the world is
    left as it was, whatever the configuration. *)
Lemma topic_hit (r : Request TopicBody) (u : User) (b : TopicBody)
    (c : TopicContent) (w : World) :
  auth r = Some u -> body r = Some b ->
  topics (kv w) !! content_key u b = Some c ->
  handle (post_generate_topic_content E r) w
    = ({| code := 200; payload := PContent c |}, w).
Proof.
  destruct r as [a bd]. cbn. intros -> -> Hc.
  unfold post_generate_topic_content. run_handler. unfold store_get.
  cbn [table stored_TopicContent]. by rewrite Hc.
Qed.

(** Every run of the handler, by the path it takes. *)
Lemma topic_paths (u : User) (b : TopicBody) (w : World) :
  let run := handle (post_generate_topic_content E (authed u b)) w in
  (exists c, topics (kv w) !! content_key u b = Some c
             /\ run = ({| code := 200; payload := PContent c |}, w))
  \/ (topics (kv w) !! content_key u b = None
      /\ ((configured (HF_TOKEN E) = None
           /\ run = ({| code := 500; payload := PConfigError hf_not_configured |}, w))
          \/ (exists msg, code (fst run) = 500%nat /\ payload (fst run) = PError msg)
          \/ (exists c, fst run = {| code := 200; payload := PContent c |}
                        /\ topics (kv (snd run))
                           = <[content_key u b := c]> (topics (kv w))))).
Proof.
  cbn zeta. destruct (topics (kv w) !! content_key u b) as [c|] eqn:Hc.
  - left. exists c. split; [done|]. by apply (topic_hit _ u b).
  - right. split; [done|].
    unfold post_generate_topic_content, authed. run_handler. unfold store_get.
    cbn [table stored_TopicContent]. rewrite Hc.
    destruct (configured (HF_TOKEN E)) as [tok|]; [|by left].
    right. run_handler.
    destruct (provider E _) as [e|st txt|[| | |reply]];
      try (left; eexists; split; reflexivity);
      right; eexists; split; reflexivity.
Qed.

(** C7. When content is stored under the topic key, the call returns it
    as stored and leaves the world as it was: no provider call, no store
    write. And after any call that answered 200, by a hit or by generating
    and storing, the same call again returns the same response and changes
    nothing. *)
Theorem C7_topic_cache_is_read_through (u : User) (b : TopicBody) (w : World) :
  (forall c, topics (kv w) !! content_key u b = Some c ->
     handle (post_generate_topic_content E (authed u b)) w
       = ({| code := 200; payload := PContent c |}, w))
  /\ (forall r1 w1,
        handle (post_generate_topic_content E (authed u b)) w = (r1, w1) ->
        code r1 = 200%nat ->
        handle (post_generate_topic_content E (authed u b)) w1 = (r1, w1)).
Proof.
  split.
  - intros c Hc. by apply (topic_hit _ u b).
  - intros r1 w1 Hrun Hcode.
    destruct (topic_paths u b w)
      as [(c & Hc & Hhit)|(Hmiss & [(_ & Herr)|[(msg & Hc500 & _)|(c & Hfst & Hkv)]])];
      cbn zeta in *.
    + rewrite Hhit in Hrun. injection Hrun as <- <-. by apply (topic_hit _ u b).
    + rewrite Herr in Hrun. injection Hrun as <- <-. discriminate Hcode.
    + rewrite Hrun in Hc500. cbn in Hc500. congruence.
    + rewrite Hrun in Hfst, Hkv. cbn in Hfst, Hkv. subst r1.
      apply (topic_hit _ u b); [done..|]. by rewrite Hkv, lookup_insert_eq.
Qed.

(** C10. The stored content is returned also when no HuggingFace token is
    configured; the "not configured" answer is given only to an
    authenticated request whose topic key holds nothing. *)
Theorem C10_cache_lookup_precedes_key_check (r : Request TopicBody) (w : World) :
  (forall u b c,
     auth r = Some u -> body r = Some b ->
     topics (kv w) !! content_key u b = Some c ->
     configured (HF_TOKEN E) = None ->
     handle (post_generate_topic_content E r) w
       = ({| code := 200; payload := PContent c |}, w))
  /\ (payload (fst (handle (post_generate_topic_content E r) w))
        = PConfigError hf_not_configured ->
      exists u b,
        auth r = Some u /\ body r = Some b
        /\ topics (kv w) !! content_key u b = None
        /\ configured (HF_TOKEN E) = None).
Proof.
  split.
  - intros u b c Hu Hb Hc _. by apply (topic_hit _ u b).
  - destruct r as [[u|] [bd|]]; try discriminate.
    fold (authed u bd). intros Hpay. exists u, bd.
    destruct (topic_paths u bd w)
      as [(c & Hc & Hhit)|(Hmiss & [(Hcfg & _)|[(msg & _ & Hp)|(c & Hfst & _)]])];
      cbn zeta in *.
    + rewrite Hhit in Hpay. discriminate Hpay.
    + done.
    + rewrite Hp in Hpay. discriminate Hpay.
    + rewrite Hfst in Hpay. discriminate Hpay.
Qed.

End TopicProperties.

(** A miss followed by the same call: the first call generates and stores,
    the second returns the very same response and touches nothing. *)
Lemma C7_witness :
  let call := handle (post_generate_topic_content Sample.env_hf
                        (authed Sample.alice Sample.closures)) in
  call (snd (call Sample.start)) = call Sample.start
  /\ call Sample.cached
     = ({| code := 200; payload := PContent Sample.lesson |}, Sample.cached).
Proof.
  intros call. subst call.
  destruct (C7_topic_cache_is_read_through Sample.env_hf Sample.alice
              Sample.closures Sample.start) as [_ Hagain].
  destruct (C7_topic_cache_is_read_through Sample.env_hf Sample.alice
              Sample.closures Sample.cached) as [Hhit _].
  split.
  - rewrite (Hagain _ _ (surjective_pairing _)); [|reflexivity].
    symmetry. apply surjective_pairing.
  - apply Hhit. reflexivity.
Defined.

Lemma C10_witness :
  handle (post_generate_topic_content Sample.env
            (authed Sample.alice Sample.closures)) Sample.cached
    = ({| code := 200; payload := PContent Sample.lesson |}, Sample.cached).
Proof.
  apply (proj1 (C10_cache_lookup_precedes_key_check Sample.env
                  (authed Sample.alice Sample.closures) Sample.cached)
               Sample.alice Sample.closures Sample.lesson);
    reflexivity.
Defined.

(** * Further properties of the handlers *)

(** ** Rejected requests *)

Section Rejected.

Context (E : Environment).

(** Every handler checks the verified user first: without one the answer is
    401 and nothing else happens; the GET handlers answer 401 as well. *)
Theorem unauthorized_requests_change_nothing (w : World) :
  (forall b, handle (post_profile E {| auth := None; body := b |}) w
             = (Cases.unauthorized, w))
  /\ (forall b, handle (post_progress E {| auth := None; body := b |}) w
                = (Cases.unauthorized, w))
  /\ (forall b, handle (post_achievements {| auth := None; body := b |}) w
                = (Cases.unauthorized, w))
  /\ (forall b, handle (post_chat E {| auth := None; body := b |}) w
                = (Cases.unauthorized, w))
  /\ (forall b, handle (post_generate_roadmap E {| auth := None; body := b |}) w
                = (Cases.unauthorized, w))
  /\ (forall b, handle (post_generate_topic_content E {| auth := None; body := b |}) w
                = (Cases.unauthorized, w))
  /\ get_profile None w = get_unauthorized
  /\ get_roadmap None w = get_unauthorized
  /\ get_progress None w = get_unauthorized
  /\ (forall m t, get_topic_content None m t w = get_unauthorized)
  /\ get_chat_history None w = get_unauthorized
  /\ get_achievements None w = get_unauthorized.
Proof. repeat split. Qed.

(** An authenticated request whose body is not JSON is answered 500 by the
    handlers that read the body, before any store access, clock reading or
    provider call: the world is left as it was. *)
Theorem unparsable_body_changes_nothing (u : User) (w : World) :
  let failed (run : Response * World) := code (fst run) = 500%nat /\ snd run = w in
  failed (handle (post_profile E {| auth := Some u; body := None |}) w)
  /\ failed (handle (post_progress E {| auth := Some u; body := None |}) w)
  /\ failed (handle (post_achievements {| auth := Some u; body := None |}) w)
  /\ failed (handle (post_chat E {| auth := Some u; body := None |}) w)
  /\ failed (handle (post_generate_topic_content E
                       {| auth := Some u; body := None |}) w).
Proof. repeat split. Qed.

End Rejected.

(** ** More on POST /progress *)

Section ProgressFrame.

Context (E : Environment).

(** An update touches one progress record and nothing else: the other
    tables, every other progress key and the provider log stay as they
    were. *)
Theorem post_progress_frame (r : Request ProgressBody) (w : World) :
  let w' := snd (handle (post_progress E r) w) in
  profiles (kv w') = profiles (kv w)
  /\ roadmaps (kv w') = roadmaps (kv w)
  /\ topics (kv w') = topics (kv w)
  /\ chats (kv w') = chats (kv w)
  /\ achievements (kv w') = achievements (kv w)
  /\ sent w' = sent w
  /\ (forall u b k, r = authed u b -> k <> progress_key u (b_moduleId b) ->
        progress (kv w') !! k = progress (kv w) !! k).
Proof.
  destruct r as [[u|] [b|]]; cbn zeta; try (repeat split; congruence).
  unfold post_progress, merge_progress. run_handler.
  destruct (decide (b_status b = Some "completed")); run_handler; cbn;
    repeat split; intros u' b' k Heq Hk; unfold authed in Heq;
    injection Heq as <- <-; by rewrite lookup_insert_ne.
Qed.

(** The stored status after an update: the submitted one when it is a
    non-empty string, else the stored one when that is non-empty, else
    "not-started"; it is never empty or absent. The record is stamped with
    the verified user's id and the submitted module id. *)
Theorem post_progress_status (u : User) (b : ProgressBody) (w : World) :
  exists p,
    progress (kv (snd (handle (post_progress E (authed u b)) w)))
      !! progress_key u (b_moduleId b) = Some p
    /\ status p
       = Some (match configured (b_status b),
                     configured (status (existing_progress u b w)) with
               | Some s, _ => s
               | None, Some s => s
               | None, None => "not-started"
               end)
    /\ truthy (status p) = true
    /\ userId p = Some (user_id u)
    /\ moduleId p = b_moduleId b.
Proof.
  unfold post_progress, merge_progress, existing_progress, authed. run_handler.
  unfold store_get. cbn [table stored_Progress].
  set (existing := js_or_else (progress (kv w) !! _) empty_progress).
  assert (Hstatus :
    js_or_else (js_or (b_status b) (status existing)) "not-started"
    = match configured (b_status b), configured (status existing) with
      | Some s, _ => s
      | None, Some s => s
      | None, None => "not-started"
      end
    /\ truthy (js_or_else (js_or (b_status b) (status existing)) "not-started") = true).
  { unfold js_or, js_or_else, configured.
    destruct (b_status b) as [[|c s]|]; destruct (status existing) as [[|c' s']|];
      cbn; done. }
  destruct Hstatus as [Hs Ht].
  destruct (decide (b_status b = Some "completed")); run_handler; cbn;
    rewrite lookup_insert_eq; eexists; (split; [reflexivity|]); cbn;
    rewrite <- Hs; repeat split; exact Ht.
Qed.

End ProgressFrame.

Lemma post_progress_frame_witness :
  let w' := snd (handle (post_progress Sample.env
                           (authed Sample.alice Sample.first_update))
                        Sample.start) in
  progress (kv w') !! progress_key Sample.alice (Some "m2") = None
  /\ sent w' = [].
Proof.
  destruct (post_progress_frame Sample.env
              (authed Sample.alice Sample.first_update) Sample.start)
    as (_ & _ & _ & _ & _ & Hsent & Hother).
  split; [|exact Hsent].
  rewrite (Hother Sample.alice Sample.first_update
             (progress_key Sample.alice (Some "m2")) eq_refl); [reflexivity|].
  discriminate.
Defined.

(** ** More on POST /achievements *)

Section AchievementInvariants.

Lemma unlock_nodup (a : Achievements) (b : AchievementBody) :
  NoDup (string_ids (unlocked a)) -> NoDup (string_ids (unlocked (unlock a b))).
Proof.
  intros Hnd. unfold unlock.
  destruct (includes_id (unlocked a) (achievementId b)) eqn:Hin; [done|].
  cbn. unfold string_ids in *. rewrite omap_app.
  destruct (achievementId b) as [id|]; cbn; [|by rewrite app_nil_r].
  apply NoDup_app. split; [done|]. split; [|apply NoDup_singleton].
  intros x Hx Hx'. apply list_elem_of_singleton in Hx' as ->.
  apply list_elem_of_omap in Hx as (o & Ho & Hid). cbn in Hid. subst o.
  cbn in Hin. by apply bool_decide_eq_false in Hin.
Qed.

(** What one request does to a user's current achievements: nothing, or
    [unlock] with the body of the request. *)
Lemma post_achievements_effect (r : Request AchievementBody) (u : User)
    (w : World) :
  let a := current_achievements u w in
  let a' := current_achievements u (snd (handle (post_achievements r) w)) in
  a' = a \/ exists b, a' = unlock a b.
Proof.
  cbn zeta. destruct r as [[u'|] [b|]]; try by left.
  fold (authed u' b).
  remember (current_achievements u (snd (handle (post_achievements (authed u' b)) w)))
    as a' eqn:Ha'.
  rewrite post_achievements_step in Ha'. cbn [snd] in Ha'.
  unfold current_achievements in Ha' at 1. cbn in Ha'.
  destruct (decide (achievements_key u' = achievements_key u)) as [Heq|Hne].
  - right. exists b. rewrite Heq, lookup_insert_eq in Ha'. cbn in Ha'.
    subst a'. unfold current_achievements. by rewrite Heq.
  - left. by rewrite lookup_insert_ne in Ha'.
Qed.

Lemma unlock_nodup_ids (a : Achievements) (b : AchievementBody) :
  is_Some (achievementId b) ->
  NoDup (unlocked a) -> NoDup (unlocked (unlock a b)).
Proof.
  intros [id Hid] Hnd. unfold unlock.
  destruct (includes_id (unlocked a) (achievementId b)) eqn:Hin; [done|].
  rewrite Hid in Hin |- *. cbn in Hin |- *. apply bool_decide_eq_false in Hin.
  apply NoDup_app. split; [done|]. split; [|apply NoDup_singleton].
  intros x Hx Hx'. apply list_elem_of_singleton in Hx' as ->. done.
Qed.

(** An achievement id carried by a body is recorded at most once. If the
    string ids of the user's unlocked list have no duplicate (as in the
    initial empty list), they have none after any sequence of requests;
    null entries, which bodies without an id append, are not ids and may
    repeat. If moreover every request carries an id and the list has no
    duplicate entry, it has no duplicate entry afterwards. *)
Theorem unlocked_never_holds_a_duplicate (rs : list (Request AchievementBody))
    (u : User) (w : World) :
  let a := current_achievements u w in
  let a' := current_achievements u (run_achievements rs w) in
  (NoDup (string_ids (unlocked a)) -> NoDup (string_ids (unlocked a')))
  /\ (Forall carries_id rs -> NoDup (unlocked a) -> NoDup (unlocked a')).
Proof.
  cbn zeta. split.
  - revert w. induction rs as [|r rs IH]; intros w Hnd; [exact Hnd|].
    cbn [run_achievements fold_left]. apply IH.
    destruct (post_achievements_effect r u w) as [->|[b ->]]; [done|].
    by apply unlock_nodup.
  - intros Hall. revert w. induction Hall as [|r rs Hr _ IH]; intros w Hnd;
      [exact Hnd|].
    cbn [run_achievements fold_left]. apply IH.
    destruct (post_achievements_applies r u w) as [->|(b & Hb & ->)]; [done|].
    apply unlock_nodup_ids; [by apply Hr | done].
Qed.

Lemma unlock_grows (a : Achievements) (b : AchievementBody) :
  unlock a b = a
  \/ (unlocked (unlock a b) = (unlocked a ++ [achievementId b])%list
      /\ xp (unlock a b) = add_xp (xp a) (b_xp b)
      /\ streak (unlock a b) = streak a).
Proof.
  unfold unlock.
  destruct (includes_id (unlocked a) (achievementId b)); [by left | by right].
Qed.

(** Unlocked ids are never removed or reordered and the streak is never
    written: after any sequence of requests the earlier list is a prefix of
    the later one and the streak is the same; when no id was added, the
    achievements are exactly as before (no xp is credited without a new
    id). *)
Theorem unlocked_only_grows (rs : list (Request AchievementBody)) (u : User)
    (w : World) :
  let a := current_achievements u w in
  let a' := current_achievements u (run_achievements rs w) in
  exists added,
    unlocked a' = (unlocked a ++ added)%list
    /\ streak a' = streak a
    /\ (added = [] -> a' = a).
Proof.
  cbn zeta. revert w. induction rs as [|r rs IH]; intros w.
  - exists []. by rewrite app_nil_r.
  - cbn [run_achievements fold_left].
    destruct (IH (snd (handle (post_achievements r) w)))
      as (added & Hun & Hst & Hsame).
    fold (run_achievements rs (snd (handle (post_achievements r) w))) in *.
    destruct (post_achievements_effect r u w) as [Heq|[b Heq]]; cbn zeta in Heq.
    + exists added. rewrite Hun, Hst, Heq. repeat split.
      intros Hnil. by rewrite (Hsame Hnil).
    + rewrite Heq in Hun, Hst, Hsame.
      destruct (unlock_grows (current_achievements u w) b)
        as [Hnoop|(Hu & _ & Hs)].
      * exists added. rewrite Hun, Hst, Hnoop. repeat split.
        intros Hnil. by rewrite (Hsame Hnil).
      * exists (achievementId b :: added).
        rewrite Hun, Hst, Hu, Hs, <- app_assoc. by repeat split.
Qed.

End AchievementInvariants.

Lemma unlocked_never_holds_a_duplicate_witness :
  NoDup (unlocked (current_achievements Sample.alice
                     (run_achievements
                        [authed Sample.alice Sample.first_module;
                         authed Sample.alice Cases.first_module_again;
                         authed Sample.alice Cases.week_streak]
                        Sample.start))).
Proof.
  apply (proj2 (unlocked_never_holds_a_duplicate
                  [authed Sample.alice Sample.first_module;
                   authed Sample.alice Cases.first_module_again;
                   authed Sample.alice Cases.week_streak]
                  Sample.alice Sample.start)).
  - repeat constructor; intros b [= <-]; by eexists.
  - cbn. apply NoDup_nil_2.
Defined.

(** With bodies without an id in between: the id submitted twice is held
    once, the two bodies without an id left a null each. *)
Example unlocked_with_nulls :
  unlocked (current_achievements Sample.alice
              (run_achievements
                 [authed Sample.alice Sample.first_module;
                  authed Sample.alice Cases.empty_body;
                  authed Sample.alice Cases.first_module_again;
                  authed Sample.alice Cases.empty_body;
                  authed Sample.alice Cases.week_streak]
                 Sample.start))
  = [Some "first-module"; None; None; Some "week-streak"].
Proof. reflexivity. Qed.

Lemma unlocked_only_grows_witness :
  current_achievements Sample.alice
    (run_achievements [authed Sample.alice Sample.first_module;
                       authed Sample.alice Cases.first_module_again]
       (run_achievements [authed Sample.alice Sample.first_module] Sample.start))
  = {| unlocked := [Some "first-module"]; xp := Some 1500; level := Some 2;
       streak := 0 |}.
Proof.
  destruct (unlocked_only_grows
              [authed Sample.alice Sample.first_module;
               authed Sample.alice Cases.first_module_again]
              Sample.alice
              (run_achievements [authed Sample.alice Sample.first_module]
                 Sample.start)) as (added & Hun & _ & Hsame).
  rewrite Hsame; [reflexivity|].
  vm_compute in Hun. destruct added as [|x added]; [reflexivity|discriminate Hun].
Defined.

(** ** More on POST /generate-roadmap and GET /roadmap *)

Section RoadmapPaths.

Context (E : Environment).

(** Without a stored profile the handler answers 400 and does nothing else,
    whether or not a provider key is configured. *)
Theorem roadmap_requires_profile (r : Request unit) (u : User) (w : World) :
  auth r = Some u ->
  profiles (kv w) !! profile_key u = None ->
  handle (post_generate_roadmap E r) w
    = ({| code := 400;
          payload := PError "Profile not found. Please complete onboarding first." |},
       w).
Proof.
  destruct r as [a bd]. cbn. intros -> Hnone.
  unfold post_generate_roadmap. run_handler. unfold store_get.
  cbn [table stored_Profile]. by rewrite Hnone.
Qed.

(** With a key configured and a 2xx reply whose text parses, the roadmap
    stored and returned carries the verified user's id, the profile's target
    goal and the parsed text, is not marked as a template, and exactly one
    provider call was made. *)
Theorem roadmap_generated_by_provider (r : Request unit) (u : User)
    (p : Profile) (w : World) (key text : string) :
  auth r = Some u ->
  profiles (kv w) !! profile_key u = Some p ->
  configured (OPENAI_API_KEY E) = Some key ->
  provider E (sent w ++ [OpenAIRoadmap key p]) = Ok2xx (Message (Some text)) ->
  json_parses E text = true ->
  let roadmap :=
    {| rm_userId := user_id u; rm_targetGoal := pf_targetGoal p;
       rm_content := Parsed text;
       rm_createdAt := clock E (ticks w);
       rm_lastUpdated := clock E (S (ticks w));
       rm_isTemplate := false |} in
  exists w',
    handle (post_generate_roadmap E r) w
      = ({| code := 200; payload := PRoadmap roadmap |}, w')
    /\ roadmaps (kv w') !! roadmap_key u = Some roadmap
    /\ sent w' = (sent w ++ [OpenAIRoadmap key p])%list.
Proof.
  intros Hauth Hp Hkey Hreply Hparse roadmap.
  destruct r as [a bd]. cbn in Hauth. subst a.
  unfold post_generate_roadmap. run_handler. unfold store_get.
  cbn [table stored_Profile]. rewrite Hp, Hkey. run_handler. cbn [kv sent].
  rewrite Hreply. cbn [first_content]. run_handler. rewrite Hparse.
  eexists. split; [reflexivity|]. cbn. by rewrite lookup_insert_eq.
Qed.

(** Only a non-2xx reply falls back to a template. When the call itself
    fails, or the 2xx reply is not JSON, has no first choice or no message,
    has no content field, or has a content string that does not parse, the
    answer is 500 and no roadmap is written: the store is as before. *)
Theorem roadmap_thrown_failure_stores_nothing (r : Request unit) (u : User)
    (p : Profile) (w : World) (key : string) :
  auth r = Some u ->
  profiles (kv w) !! profile_key u = Some p ->
  configured (OPENAI_API_KEY E) = Some key ->
  (forall st txt,
     provider E (sent w ++ [OpenAIRoadmap key p]) <> NotOk st txt) ->
  (forall text,
     provider E (sent w ++ [OpenAIRoadmap key p]) = Ok2xx (Message (Some text)) ->
     json_parses E text = false) ->
  let run := handle (post_generate_roadmap E r) w in
  code (fst run) = 500%nat
  /\ kv (snd run) = kv w
  /\ sent (snd run) = (sent w ++ [OpenAIRoadmap key p])%list.
Proof.
  intros Hauth Hp Hkey Hnot Hbad. cbn zeta.
  destruct r as [a bd]. cbn in Hauth. subst a.
  unfold post_generate_roadmap. run_handler. unfold store_get.
  cbn [table stored_Profile]. rewrite Hp, Hkey. run_handler. cbn [kv sent].
  destruct (provider E _) as [e|st txt|[| | |[text|]]] eqn:Hreply;
    try (cbn; done).
  - by destruct (Hnot st txt).
  - cbn [first_content]. run_handler. by rewrite (Hbad text eq_refl).
Qed.

(** Whatever POST /generate-roadmap answered with status 200 is what
    GET /roadmap returns afterwards. *)
Theorem roadmap_read_back (r : Request unit) (u : User) (w : World) :
  auth r = Some u ->
  let run := handle (post_generate_roadmap E r) w in
  code (fst run) = 200%nat ->
  exists roadmap,
    payload (fst run) = PRoadmap roadmap
    /\ get_roadmap (Some u) (snd run)
       = {| g_code := 200; g_payload := GRoadmap (Some roadmap) |}.
Proof.
  intros Hauth. destruct r as [a bd]. cbn in Hauth. subst a.
  cbn zeta. unfold post_generate_roadmap. run_handler. unfold store_get.
  cbn [table stored_Profile].
  destruct (profiles (kv w) !! profile_key u) as [p|]; [|discriminate].
  assert (Hsite : forall w0,
            exists roadmap,
              payload (fst (handle (answer_with_template E u p) w0))
                = PRoadmap roadmap
              /\ get_roadmap (Some u) (snd (handle (answer_with_template E u p) w0))
                 = {| g_code := 200; g_payload := GRoadmap (Some roadmap) |}).
  { intros w0.
    destruct (answer_with_template_run E u p w0) as (r0 & w' & Hrun & Hkv & _).
    exists r0. rewrite Hrun. cbn. split; [done|].
    unfold get_roadmap, store_get. cbn [table stored_Roadmap].
    by rewrite Hkv, lookup_insert_eq. }
  destruct (configured (OPENAI_API_KEY E)) as [key|]; [|intros _; apply Hsite].
  run_handler. cbn [kv sent].
  destruct (provider E _) as [e|st txt|[| | |[text|]]]; try discriminate.
  - intros _. apply Hsite.
  - cbn [first_content]. run_handler.
    destruct (json_parses E text); [|discriminate].
    intros _. eexists. split; [reflexivity|]. cbn.
    unfold get_roadmap, store_get. cbn. by rewrite lookup_insert_eq.
Qed.

End RoadmapPaths.

Lemma roadmap_requires_profile_witness :
  handle (post_generate_roadmap Cases.env_roadmap Cases.no_body) Sample.start
    = ({| code := 400;
          payload := PError "Profile not found. Please complete onboarding first." |},
       Sample.start).
Proof.
  apply (roadmap_requires_profile Cases.env_roadmap Cases.no_body Sample.alice);
    reflexivity.
Defined.

Lemma roadmap_generated_by_provider_witness :
  exists w',
    handle (post_generate_roadmap Cases.env_roadmap Cases.no_body) Sample.onboarded
      = ({| code := 200;
            payload := PRoadmap
              {| rm_userId := "7f3c";
                 rm_targetGoal := Some "Senior Data Scientist";
                 rm_content := Parsed "{}";
                 rm_createdAt := "2024-02-01T10:30:00.000Z";
                 rm_lastUpdated := "2024-02-01T10:30:00.001Z";
                 rm_isTemplate := false |} |}, w').
Proof.
  destruct (roadmap_generated_by_provider Cases.env_roadmap Cases.no_body
              Sample.alice Sample.alice_profile Sample.onboarded "sk-test"
              "{}") as (w' & Hrun & _); try reflexivity.
  exists w'. exact Hrun.
Defined.

Lemma roadmap_thrown_failure_stores_nothing_witness :
  let run := handle (post_generate_roadmap Cases.env_offline Cases.no_body)
                    Sample.onboarded in
  code (fst run) = 500%nat /\ kv (snd run) = kv Sample.onboarded.
Proof.
  destruct (roadmap_thrown_failure_stores_nothing Cases.env_offline
              Cases.no_body Sample.alice Sample.alice_profile Sample.onboarded
              "sk-test") as (Hcode & Hkv & _); try reflexivity; try discriminate.
  split; [exact Hcode | exact Hkv].
Defined.

Lemma roadmap_read_back_witness :
  exists roadmap,
    get_roadmap (Some Sample.alice)
      (snd (handle (post_generate_roadmap Sample.env Cases.no_body)
                   Sample.onboarded))
      = {| g_code := 200; g_payload := GRoadmap (Some roadmap) |}
    /\ rm_content roadmap = FromTemplate data_scientist_template.
Proof.
  destruct (roadmap_read_back Sample.env Cases.no_body Sample.alice
              Sample.onboarded eq_refl eq_refl) as (roadmap & Hpay & Hget).
  exists roadmap. split; [exact Hget|].
  cbn in Hpay. injection Hpay as <-. reflexivity.
Defined.

(** ** More on POST /chat and GET /chat/history *)

Section ChatPaths.

Context (E : Environment).

(** The history is written on success only: when the provider does not
    answer 2xx with a message, the store is left as it was. A non-2xx reply
    gets the generic 500 answer. *)
Theorem chat_failure_stores_nothing (u : User) (b : ChatBody) (w : World)
    (key : string) :
  configured (OPENAI_API_KEY E) = Some key ->
  let call := OpenAIChat key (profiles (kv w) !! profile_key u)
                (js_or_else (conversationHistory b) []) (message b) in
  (forall reply, provider E (sent w ++ [call]) <> Ok2xx (Message reply)) ->
  let run := handle (post_chat E (authed u b)) w in
  code (fst run) = 500%nat
  /\ kv (snd run) = kv w
  /\ (forall st txt, provider E (sent w ++ [call]) = NotOk st txt ->
        payload (fst run) = PError "Failed to get response from AI assistant").
Proof.
  intros Hkey call Hfail. cbn zeta. unfold post_chat, authed. run_handler.
  rewrite Hkey. run_handler. unfold store_get. cbn [table stored_Profile kv sent].
  fold call.
  destruct (provider E (sent w ++ [call])) as [e|st txt|[| | |reply]] eqn:Hreply;
    try (cbn; repeat split; done).
  by destruct (Hfail reply).
Qed.

(** After a successful call the stored history ends with the new exchange,
    user message before assistant reply, and GET /chat/history returns the
    stored history. *)
Theorem chat_history_ends_with_exchange (u : User) (b : ChatBody) (w : World)
    (key : string) (reply : option string) :
  configured (OPENAI_API_KEY E) = Some key ->
  provider E (sent w ++ [OpenAIChat key (profiles (kv w) !! profile_key u)
                           (js_or_else (conversationHistory b) []) (message b)])
    = Ok2xx (Message reply) ->
  let w' := snd (handle (post_chat E (authed u b)) w) in
  exists earlier,
    get_chat_history (Some u) w'
      = {| g_code := 200;
           g_payload := GHistory (earlier ++ exchange E b reply w) |}
    /\ earlier `suffix_of` default [] (chats (kv w) !! chat_key u).
Proof.
  intros Hkey Hreply w'.
  destruct (post_chat_success E u b w key reply Hkey Hreply) as (w1 & Hrun & Hkv).
  subst w'. rewrite Hrun. cbn [snd].
  set (prior := default [] (chats (kv w) !! chat_key u)) in *.
  exists (drop (length prior + 2 - 50) prior). split.
  - unfold get_chat_history, store_get. cbn [table stored_Chat].
    rewrite Hkv, lookup_insert_eq. cbn [js_or_else truthy truthy_list].
    rewrite keep_last_50_is_last_entries. unfold last_entries.
    rewrite length_app. cbn [length exchange].
    rewrite drop_app_le by lia. done.
  - apply suffix_drop.
Qed.

End ChatPaths.

Lemma chat_failure_stores_nothing_witness :
  let run := handle (post_chat Cases.env_busy
                       (authed Sample.alice Sample.question)) Sample.onboarded in
  code (fst run) = 500%nat
  /\ kv (snd run) = kv Sample.onboarded
  /\ payload (fst run) = PError "Failed to get response from AI assistant".
Proof.
  destruct (chat_failure_stores_nothing Cases.env_busy Sample.alice
              Sample.question Sample.onboarded "sk-test" eq_refl)
    as (Hcode & Hkv & Hpay); [discriminate|].
  split; [exact Hcode|]. split; [exact Hkv|].
  apply (Hpay "503" "Service Unavailable"). reflexivity.
Defined.

Lemma chat_history_ends_with_exchange_witness :
  get_chat_history (Some Sample.alice)
    (snd (handle (post_chat Sample.env_ai (authed Sample.alice Sample.question))
                 Sample.start))
  = {| g_code := 200;
       g_payload := GHistory (exchange Sample.env_ai Sample.question
                                (Some "Start with the basics.") Sample.start) |}.
Proof.
  destruct (chat_history_ends_with_exchange Sample.env_ai Sample.alice
              Sample.question Sample.start "sk-test"
              (Some "Start with the basics.") eq_refl eq_refl)
    as (earlier & Hget & Hsuffix).
  rewrite Hget. apply suffix_nil_inv in Hsuffix. by rewrite Hsuffix.
Defined.

(** ** More on POST /generate-topic-content and GET /topic-content *)

Section TopicPaths.

Context (E : Environment).

(** On a miss with a token configured, a 2xx reply whose body is JSON
    yields a 200 answer whenever the object parsed from its text, if one is,
    has [youtubeSearchQueries] absent or an array of strings: content is
    built, stamped with the request's topic, module id, module title and
    difficulty and the current time, stored under the topic key and
    returned. A reply without choices, message or text, or with a text that
    does not parse, is absorbed, never reported. *)
Theorem topic_miss_always_yields_content (u : User) (b : TopicBody)
    (w : World) (tok : string) (data : Completion) :
  topics (kv w) !! content_key u b = None ->
  configured (HF_TOKEN E) = Some tok ->
  provider E (sent w ++ [HFTopic tok (tb_topic b) (tb_moduleTitle b)
                           (tb_difficulty b) (tb_targetGoal b)]) = Ok2xx data ->
  data <> BadJson ->
  let c :=
    {| tc_generated := generated_of E b data;
       youtubeVideos :=
         videos_of E (js_or_else (youtubeSearchQueries (generated_of E b data)) []);
       tc_topic := tb_topic b; tc_moduleId := tb_moduleId b;
       tc_moduleTitle := tb_moduleTitle b; tc_difficulty := tb_difficulty b;
       generatedAt := clock E (ticks w) |} in
  let run := handle (post_generate_topic_content E (authed u b)) w in
  fst run = {| code := 200; payload := PContent c |}
  /\ topics (kv (snd run)) !! content_key u b = Some c.
Proof.
  intros Hmiss Htok Hreply Hjson. cbn zeta.
  unfold post_generate_topic_content, authed. run_handler. unfold store_get.
  cbn [table stored_TopicContent]. rewrite Hmiss, Htok. run_handler.
  cbn [kv sent]. rewrite Hreply.
  destruct data; try done; cbn; by rewrite lookup_insert_eq.
Qed.

(** When the call fails, or is answered non-2xx or with a body that is not
    JSON, the answer is 500 and nothing is stored: the next call for the
    topic is a miss again. *)
Theorem topic_provider_failure_stores_nothing (u : User) (b : TopicBody)
    (w : World) (tok : string) :
  topics (kv w) !! content_key u b = None ->
  configured (HF_TOKEN E) = Some tok ->
  (forall data,
     provider E (sent w ++ [HFTopic tok (tb_topic b) (tb_moduleTitle b)
                              (tb_difficulty b) (tb_targetGoal b)]) = Ok2xx data ->
     data = BadJson) ->
  let run := handle (post_generate_topic_content E (authed u b)) w in
  code (fst run) = 500%nat /\ kv (snd run) = kv w.
Proof.
  intros Hmiss Htok Hfail. cbn zeta.
  unfold post_generate_topic_content, authed. run_handler. unfold store_get.
  cbn [table stored_TopicContent]. rewrite Hmiss, Htok. run_handler.
  cbn [kv sent].
  destruct (provider E _) as [e|st txt|data] eqn:Hreply; try done.
  by rewrite (Hfail data eq_refl).
Qed.

(** Content that POST /generate-topic-content answered with status 200 is
    what GET /topic-content/:moduleId/:topic returns for the same module id
    and topic. *)
Theorem topic_content_read_back (u : User) (b : TopicBody) (m t : string)
    (w : World) :
  tb_moduleId b = Some m -> tb_topic b = Some t ->
  let run := handle (post_generate_topic_content E (authed u b)) w in
  code (fst run) = 200%nat ->
  exists c,
    payload (fst run) = PContent c
    /\ get_topic_content (Some u) m t (snd run)
       = {| g_code := 200; g_payload := GContent (Some c) |}.
Proof.
  intros Hm Ht run Hcode. subst run.
  assert (Hkey : "topic-content:" +:+ user_id u +:+ ":" +:+ m +:+ ":" +:+ t
                 = content_key u b).
  { unfold content_key. by rewrite Hm, Ht. }
  unfold get_topic_content, store_get. cbn [table stored_TopicContent].
  rewrite Hkey.
  destruct (topic_paths E u b w)
    as [(c & Hc & Hhit)|(Hmiss & [(_ & Herr)|[(msg & Hc500 & _)|(c & Hfst & Hkv)]])];
    cbn zeta in *.
  - rewrite Hhit. exists c. cbn. by rewrite Hc.
  - rewrite Herr in Hcode. discriminate Hcode.
  - congruence.
  - exists c. rewrite Hfst, Hkv, lookup_insert_eq. done.
Qed.

End TopicPaths.

Lemma topic_miss_always_yields_content_witness :
  exists c,
    fst (handle (post_generate_topic_content Sample.env_hf
                   (authed Sample.alice Sample.closures)) Sample.start)
      = {| code := 200; payload := PContent c |}
    /\ explanation (tc_generated c) = Some "Closures capture variables."
    /\ tc_topic c = Some "Closures".
Proof.
  destruct (topic_miss_always_yields_content Sample.env_hf Sample.alice
              Sample.closures Sample.start "hf-test"
              (Message (Some "Closures capture variables.")))
    as [Hfst _]; try reflexivity; [discriminate|].
  eexists. split; [exact Hfst|]. split; reflexivity.
Defined.

Lemma topic_provider_failure_stores_nothing_witness :
  let run := handle (post_generate_topic_content Cases.env_busy
                       (authed Sample.alice Sample.closures)) Sample.start in
  code (fst run) = 500%nat /\ kv (snd run) = kv Sample.start.
Proof.
  apply (topic_provider_failure_stores_nothing Cases.env_busy Sample.alice
           Sample.closures Sample.start "hf-test"); try reflexivity.
  discriminate.
Defined.

Lemma topic_content_read_back_witness :
  get_topic_content (Some Sample.alice) "m1" "Closures" Sample.cached
  = {| g_code := 200; g_payload := GContent (Some Sample.lesson) |}.
Proof.
  destruct (topic_content_read_back Sample.env Sample.alice Sample.closures
              "m1" "Closures" Sample.cached eq_refl eq_refl eq_refl)
    as (c & Hpay & Hget).
  cbn in Hpay. injection Hpay as <-. exact Hget.
Defined.

(** ** Provider calls *)

Section ProviderCalls.

Context (E : Environment).

(** The profile, progress and achievements handlers never call a provider.
    The chat, roadmap and topic handlers make at most one call per request,
    appended to the log, and only with the configured key of the provider
    called: without the key no call is made. *)
Theorem at_most_one_provider_call (w : World) :
  (forall r, sent (snd (handle (post_profile E r) w)) = sent w)
  /\ (forall r, sent (snd (handle (post_progress E r) w)) = sent w)
  /\ (forall r, sent (snd (handle (post_achievements r) w)) = sent w)
  /\ (forall r, one_keyed_call_at_most E w (snd (handle (post_chat E r) w)))
  /\ (forall r, one_keyed_call_at_most E w
                  (snd (handle (post_generate_roadmap E r) w)))
  /\ (forall r, one_keyed_call_at_most E w
                  (snd (handle (post_generate_topic_content E r) w))).
Proof.
  assert (Hnone : forall w', sent w' = sent w -> one_keyed_call_at_most E w w').
  { intros w' Hw'. exists []. rewrite Hw', app_nil_r. repeat split; [cbn; lia|done]. }
  assert (Hone : forall w' c, sent w' = (sent w ++ [c])%list ->
                   uses_configured_key E c -> one_keyed_call_at_most E w w').
  { intros w' c Hw' Hc. exists [c]. repeat split; [done|cbn; lia|by constructor]. }
  split; [|split; [|split; [|split; [|split]]]].
  - by intros [[u|] [b|]].
  - intros [[u|] [b|]]; try done.
    unfold post_progress, merge_progress. run_handler.
    by destruct (decide (b_status b = Some "completed")).
  - by intros [[u|] [b|]].
  - intros [[u|] [b|]]; try by apply Hnone.
    unfold post_chat. run_handler.
    destruct (configured (OPENAI_API_KEY E)) as [key|] eqn:Hkey; [|by apply Hnone].
    run_handler.
    destruct (provider E _) as [e|st txt|[| | |reply]];
      by eapply Hone; [reflexivity|].
  - intros [[u|] bd]; [|by apply Hnone].
    unfold post_generate_roadmap, answer_with_template, generateTemplateRoadmap.
    run_handler. unfold store_get. cbn [table stored_Profile].
    destruct (profiles (kv w) !! profile_key u) as [p|]; [|by apply Hnone].
    destruct (configured (OPENAI_API_KEY E)) as [key|] eqn:Hkey; [|by apply Hnone].
    run_handler.
    destruct (provider E _) as [e|st txt|[| | |[text|]]];
      try (by eapply Hone; [reflexivity|]).
    cbn [first_content]. run_handler.
    by destruct (json_parses E text); (eapply Hone; [reflexivity|]).
  - intros [[u|] [b|]]; try by apply Hnone.
    unfold post_generate_topic_content. run_handler. unfold store_get.
    cbn [table stored_TopicContent].
    destruct (topics (kv w) !! content_key u b) as [c|]; [by apply Hnone|].
    destruct (configured (HF_TOKEN E)) as [tok|] eqn:Htok; [|by apply Hnone].
    run_handler.
    destruct (provider E _) as [e|st txt|[| | |reply]];
      by eapply Hone; [reflexivity|].
Qed.

End ProviderCalls.

(** ** The text helpers of the topic generator *)

Section TopicText.

Lemma upto_last_close_none (s : string) :
  upto_last_close s = None <-> free_of "}" s = true.
Proof.
  induction s as [|c s IH]; cbn; [done|].
  destruct (upto_last_close s) as [p|].
  - split; [done|]. intros Hfree. apply andb_true_iff in Hfree as [_ Hfree].
    by apply IH in Hfree.
  - destruct (Ascii.eqb c "}"); cbn; [done|]. split; [intros _|done]. by apply IH.
Qed.

Lemma upto_last_close_spec (s p : string) :
  upto_last_close s = Some p
  <-> exists mid post,
        s = mid +:+ "}" +:+ post /\ p = mid +:+ "}" /\ free_of "}" post = true.
Proof.
  split.
  - revert p. induction s as [|c s IH]; intros p; cbn; [done|].
    destruct (upto_last_close s) as [q|] eqn:Hq.
    + intros [= <-]. destruct (IH q eq_refl) as (mid & post & -> & -> & Hfree).
      by exists (String c mid), post.
    + destruct (Ascii.eqb_spec c "}") as [->|]; [|done]. intros [= <-].
      exists EmptyString, s. repeat split. by apply upto_last_close_none.
  - intros (mid & post & -> & -> & Hfree). induction mid as [|c mid IH].
    + change (upto_last_close (String "}" post) = Some (String "}" EmptyString)).
      cbn. by rewrite (proj2 (upto_last_close_none post) Hfree).
    + change (upto_last_close (String c (mid +:+ "}" +:+ post))
              = Some (String c (mid +:+ "}"))).
      cbn. by rewrite IH.
Qed.

(** [json_match] is the match of [/\{[\s\S]*\}/]: it finds the text from
    the first opening brace to the last closing brace behind it, and finds
    nothing exactly when no closing brace follows an opening one. *)
Theorem json_match_spec (s m : string) :
  json_match s = Some m
  <-> exists pre mid post,
        s = pre +:+ "{" +:+ mid +:+ "}" +:+ post
        /\ m = "{" +:+ mid +:+ "}"
        /\ free_of "{" pre = true
        /\ free_of "}" post = true.
Proof.
  split.
  - revert m. induction s as [|c s IH]; intros m; cbn; [done|].
    destruct (Ascii.eqb_spec c "{") as [->|Hc].
    + destruct (upto_last_close s) as [p|] eqn:Hp; [|done]. intros [= <-].
      apply upto_last_close_spec in Hp as (mid & post & -> & -> & Hfree).
      by exists EmptyString, mid, post.
    + intros Hm. destruct (IH m Hm) as (pre & mid & post & -> & -> & Hpre & Hpost).
      exists (String c pre), mid, post. repeat split; [|done].
      cbn. rewrite Hpre. by destruct (Ascii.eqb_spec c "{").
  - intros (pre & mid & post & -> & -> & Hpre & Hpost).
    induction pre as [|c pre IH].
    + change (json_match (String "{" (mid +:+ "}" +:+ post))
              = Some (String "{" (mid +:+ "}"))).
      cbn.
      by rewrite (proj2 (upto_last_close_spec (mid +:+ "}" +:+ post) (mid +:+ "}")))
        by (by exists mid, post).
    + cbn in Hpre. apply andb_true_iff in Hpre as [Hc Hpre].
      change (json_match (String c (pre +:+ "{" +:+ mid +:+ "}" +:+ post))
              = Some ("{" +:+ mid +:+ "}")).
      cbn. destruct (Ascii.eqb c "{"); [done|]. by apply IH.
Qed.

Context (E : Environment).

(** The search links are the queries that [encodeURIComponent] accepts, in
    the order of the queries and one link per accepted query, a query on
    which it throws being skipped; each link is titled and tagged with its
    query and points to the results page for the query's encoding. *)
Theorem videos_of_spec (queries : list string) :
  map v_title (videos_of E queries)
    = filter (fun query => is_Some (encodeURIComponent E query)) queries
  /\ Forall (fun v =>
               embedQuery v = v_title v
               /\ exists q, encodeURIComponent E (v_title v) = Some q
                            /\ searchUrl v
                               = "https://www.youtube.com/results?search_query=" +:+ q)
            (videos_of E queries).
Proof.
  induction queries as [|query rest [Hmap Hall]]; cbn [videos_of map].
  - split; [done|constructor].
  - destruct (encodeURIComponent E query) as [q|] eqn:Henc.
    + split.
      * rewrite filter_cons_True by (by rewrite Henc). cbn. by rewrite Hmap.
      * constructor; [|exact Hall]. cbn. split; [done|]. by exists q.
    + split; [|exact Hall].
      rewrite filter_cons_False; [done|]. rewrite Henc. by intros [? ?].
Qed.

End TopicText.

Lemma json_match_spec_witness :
  json_match "Sure: {a: {b}} and } done" = Some "{a: {b}} and }".
Proof.
  apply json_match_spec. exists "Sure: ", "a: {b}} and ", " done".
  repeat split.
Defined.

Lemma videos_of_spec_witness :
  map v_title (videos_of Sample.env ["closures"; "recursion"])
  = ["closures"; "recursion"].
Proof.
  rewrite (proj1 (videos_of_spec Sample.env ["closures"; "recursion"])).
  reflexivity.
Defined.

(** ** POST /profile and GET /profile *)

Section ProfilePaths.

Context (E : Environment).

(** A profile submission replaces the stored profile wholesale: what is
    stored and then read back by GET /profile is built from the verified
    user, the body and the clock alone, with the identity fields of the
    verified user, [knownSkills] defaulting to the empty list and
    [onboardingComplete] to false; nothing of an earlier profile, its
    [createdAt] included, survives. *)
Theorem profile_is_replaced_wholesale (u : User) (b : ProfileBody) (w : World) :
  let p :=
    {| pf_userId := user_id u; pf_email := user_email u; pf_name := user_name u;
       pf_background := pb_background b; pf_currentRole := pb_currentRole b;
       pf_yearsOfExperience := pb_yearsOfExperience b;
       pf_knownSkills := default [] (pb_knownSkills b);
       pf_targetGoal := pb_targetGoal b;
       pf_preferredLanguage := pb_preferredLanguage b;
       pf_learningPace := pb_learningPace b;
       pf_hoursPerWeek := pb_hoursPerWeek b;
       pf_learningStyle := pb_learningStyle b;
       pf_onboardingComplete := default false (pb_onboardingComplete b);
       pf_createdAt := clock E (ticks w);
       pf_updatedAt := clock E (S (ticks w)) |} in
  let run := handle (post_profile E (authed u b)) w in
  fst run = {| code := 200; payload := PProfile p |}
  /\ get_profile (Some u) (snd run) = {| g_code := 200; g_payload := GProfile p |}.
Proof.
  cbn zeta. unfold post_profile, authed. run_handler. cbn.
  unfold get_profile, store_get. cbn. rewrite lookup_insert_eq.
  by destruct (pb_knownSkills b), (pb_onboardingComplete b) as [[|]|].
Qed.

End ProfilePaths.

(** ** Keys and isolation between users *)

Section Isolation.

Context (E : Environment).

Lemma app_inj_prefix (prefix a b : string) :
  prefix +:+ a = prefix +:+ b -> a = b.
Proof.
  induction prefix as [|c prefix IH]; [done|].
  intros Heq. apply IH.
  change (String c (prefix +:+ a) = String c (prefix +:+ b)) in Heq. congruence.
Qed.

(** A separator-free segment followed by the separator determines where the
    segment ends. *)
Lemma segment_unique (c : ascii) (a a' rest rest' : string) :
  free_of c a = true -> free_of c a' = true ->
  a +:+ String c rest = a' +:+ String c rest' ->
  a = a' /\ rest = rest'.
Proof.
  revert a'. induction a as [|d a IH]; intros [|d' a'] Ha Ha' Heq.
  - by injection Heq as ->.
  - change (String c rest = String d' (a' +:+ String c rest')) in Heq.
    injection Heq as <- _. cbn in Ha'. by rewrite Ascii.eqb_refl in Ha'.
  - change (String d (a +:+ String c rest) = String c rest') in Heq.
    injection Heq as -> _. cbn in Ha. by rewrite Ascii.eqb_refl in Ha.
  - change (String d (a +:+ String c rest) = String d' (a' +:+ String c rest'))
      in Heq.
    injection Heq as -> Heq. cbn in Ha, Ha'.
    apply andb_true_iff in Ha as [_ Ha]. apply andb_true_iff in Ha' as [_ Ha'].
    destruct (IH a' Ha Ha' Heq) as [-> ->]. done.
Qed.

(** The keys that carry the user id alone are injective in it. When user
    ids hold no colon, a progress key determines the user id and the module
    id text; when module ids hold no colon either, a topic-content key
    determines user id, module id and topic. *)
Theorem keys_identify_their_owner (u u' : User) :
  (profile_key u = profile_key u' -> user_id u = user_id u')
  /\ (roadmap_key u = roadmap_key u' -> user_id u = user_id u')
  /\ (chat_key u = chat_key u' -> user_id u = user_id u')
  /\ (achievements_key u = achievements_key u' -> user_id u = user_id u')
  /\ (free_of ":" (user_id u) = true -> free_of ":" (user_id u') = true ->
      (forall m m', progress_key u m = progress_key u' m' ->
         user_id u = user_id u' /\ interp m = interp m')
      /\ (forall b b',
            free_of ":" (interp (tb_moduleId b)) = true ->
            free_of ":" (interp (tb_moduleId b')) = true ->
            content_key u b = content_key u' b' ->
            user_id u = user_id u'
            /\ interp (tb_moduleId b) = interp (tb_moduleId b')
            /\ interp (tb_topic b) = interp (tb_topic b'))).
Proof.
  split; [|split; [|split; [|split]]];
    try (intros Heq; by apply app_inj_prefix in Heq).
  intros Hu Hu'. split.
  - intros m m' Heq. apply app_inj_prefix in Heq.
    by apply (segment_unique ":") in Heq.
  - intros b b' Hm Hm' Heq. apply app_inj_prefix in Heq.
    apply (segment_unique ":") in Heq as [Hid Heq]; [|done..].
    by apply (segment_unique ":") in Heq as [? ?].
Qed.

Lemma unchanged_store (T : Type) `{Stored T} (key : string) (w w' : World) :
  (forall s : Store, with_table (table s) s = s) ->
  kv w' = kv w -> only_changed T key w w'.
Proof. intros Heta Hkv. exists (table (kv w)). by rewrite Heta. Qed.

Lemma one_store_set (T : Type) `{Stored T} (key : string) (v : T) (w w' : World) :
  kv w' = store_set key v (kv w) -> only_changed T key w w'.
Proof.
  intros Hkv. exists (<[key := v]> (table (kv w))).
  split; [done|]. intros k Hk. by rewrite lookup_insert_ne.
Qed.

(** Close a goal [only_changed ..] for a run that left the store alone. *)
Ltac store_untouched := by apply unchanged_store; [intros []|].

Lemma profile_writes_one (u : User) (w : World) (b : option ProfileBody) :
  only_changed Profile (profile_key u) w
    (snd (handle (post_profile E {| auth := Some u; body := b |}) w)).
Proof. destruct b as [b|]; [by eapply one_store_set | store_untouched]. Qed.

Lemma progress_writes_one (u : User) (w : World) (b : ProgressBody) :
  only_changed Progress (progress_key u (b_moduleId b)) w
    (snd (handle (post_progress E (authed u b)) w)).
Proof.
  unfold post_progress, merge_progress, authed. run_handler.
  destruct (decide (b_status b = Some "completed")); by eapply one_store_set.
Qed.

Lemma achievements_writes_one (u : User) (w : World) (b : option AchievementBody) :
  only_changed Achievements (achievements_key u) w
    (snd (handle (post_achievements {| auth := Some u; body := b |}) w)).
Proof. destruct b as [b|]; [by eapply one_store_set | store_untouched]. Qed.

Lemma chat_writes_one (u : User) (w : World) (b : option ChatBody) :
  only_changed (list ChatMessage) (chat_key u) w
    (snd (handle (post_chat E {| auth := Some u; body := b |}) w)).
Proof.
  destruct b as [b|]; [|store_untouched].
  unfold post_chat. run_handler.
  destruct (configured (OPENAI_API_KEY E)) as [key|]; [|store_untouched].
  run_handler.
  destruct (provider E _) as [e|st txt|[| | |reply]]; try store_untouched.
  by eapply one_store_set.
Qed.

Lemma roadmap_writes_one (u : User) (w : World) (b : option unit) :
  only_changed Roadmap (roadmap_key u) w
    (snd (handle (post_generate_roadmap E {| auth := Some u; body := b |}) w)).
Proof.
  unfold post_generate_roadmap, answer_with_template, generateTemplateRoadmap.
  run_handler. unfold store_get. cbn [table stored_Profile].
  destruct (profiles (kv w) !! profile_key u) as [p|]; [|store_untouched].
  destruct (configured (OPENAI_API_KEY E)) as [key|]; [|by eapply one_store_set].
  run_handler.
  destruct (provider E _) as [e|st txt|[| | |[text|]]];
    try store_untouched; try (by eapply one_store_set).
  cbn [first_content]. run_handler.
  destruct (json_parses E text); [by eapply one_store_set | store_untouched].
Qed.

Lemma topic_writes_one (u : User) (w : World) (b : TopicBody) :
  only_changed TopicContent (content_key u b) w
    (snd (handle (post_generate_topic_content E (authed u b)) w)).
Proof.
  unfold post_generate_topic_content, authed. run_handler. unfold store_get.
  cbn [table stored_TopicContent].
  destruct (topics (kv w) !! content_key u b) as [c|]; [store_untouched|].
  destruct (configured (HF_TOKEN E)) as [tok|]; [|store_untouched].
  run_handler.
  destruct (provider E _) as [e|st txt|[| | |reply]];
    try store_untouched; by eapply one_store_set.
Qed.

(** Each handler writes at most the one record it is about: the profile,
    achievements, chat history or roadmap of the verified user, the progress
    record of the request's module, or the topic content under the request's
    key. Everything else in the store is left as it was. *)
Theorem handlers_write_one_record (u : User) (w : World) :
  (forall b, only_changed Profile (profile_key u) w
               (snd (handle (post_profile E {| auth := Some u; body := b |}) w)))
  /\ (forall b, only_changed Progress (progress_key u (b_moduleId b)) w
                  (snd (handle (post_progress E (authed u b)) w)))
  /\ (forall b, only_changed Achievements (achievements_key u) w
                  (snd (handle (post_achievements {| auth := Some u; body := b |}) w)))
  /\ (forall b, only_changed (list ChatMessage) (chat_key u) w
                  (snd (handle (post_chat E {| auth := Some u; body := b |}) w)))
  /\ (forall b, only_changed Roadmap (roadmap_key u) w
                  (snd (handle (post_generate_roadmap E
                                  {| auth := Some u; body := b |}) w)))
  /\ (forall b, only_changed TopicContent (content_key u b) w
                  (snd (handle (post_generate_topic_content E (authed u b)) w))).
Proof.
  split; [apply profile_writes_one|]. split; [apply progress_writes_one|].
  split; [apply achievements_writes_one|]. split; [apply chat_writes_one|].
  split; [apply roadmap_writes_one | apply topic_writes_one].
Qed.

(** A request of one user changes no record of another user: with distinct,
    colon-free user ids, every record kept for [u] (profile, roadmap, chat
    history, achievements, progress of any module, content of any topic) is
    the same before and after any POST request of [u']. *)
Theorem another_users_request_changes_nothing_of_mine (u u' : User)
    (w w' : World) :
  served E u' w w' ->
  user_id u' <> user_id u ->
  free_of ":" (user_id u) = true -> free_of ":" (user_id u') = true ->
  same_records u w w'.
Proof.
  intros Hserved Hne Hu Hu'.
  assert (Kprofile : profile_key u <> profile_key u').
  { intros Heq. by apply app_inj_prefix in Heq. }
  assert (Kroadmap : roadmap_key u <> roadmap_key u').
  { intros Heq. by apply app_inj_prefix in Heq. }
  assert (Kchat : chat_key u <> chat_key u').
  { intros Heq. by apply app_inj_prefix in Heq. }
  assert (Kach : achievements_key u <> achievements_key u').
  { intros Heq. by apply app_inj_prefix in Heq. }
  assert (Kprogress : forall m m', progress_key u m <> progress_key u' m').
  { intros m m' Heq. apply app_inj_prefix in Heq.
    apply (segment_unique ":") in Heq as [Hid _]; [|done..]. by apply Hne. }
  assert (Kcontent : forall b b', content_key u b <> content_key u' b').
  { intros b b' Heq. apply app_inj_prefix in Heq.
    apply (segment_unique ":") in Heq as [Hid _]; [|done..]. by apply Hne. }
  unfold same_records. destruct Hserved as [b|b|b|b|b|b].
  - destruct (profile_writes_one u' w b) as (t' & Hkv & Hother). rewrite Hkv. cbn.
    repeat split. by apply Hother.
  - destruct b as [b|]; [|by repeat split].
    destruct (progress_writes_one u' w b) as (t' & Hkv & Hother).
    unfold authed in Hkv. rewrite Hkv. cbn.
    repeat split. intros m. by apply Hother.
  - destruct (achievements_writes_one u' w b) as (t' & Hkv & Hother).
    rewrite Hkv. cbn. repeat split. by apply Hother.
  - destruct (chat_writes_one u' w b) as (t' & Hkv & Hother). rewrite Hkv. cbn.
    repeat split. by apply Hother.
  - destruct (roadmap_writes_one u' w b) as (t' & Hkv & Hother). rewrite Hkv. cbn.
    repeat split. by apply Hother.
  - destruct b as [b|]; [|by repeat split].
    destruct (topic_writes_one u' w b) as (t' & Hkv & Hother).
    unfold authed in Hkv. rewrite Hkv. cbn.
    repeat split. intros b0. by apply Hother.
Qed.

End Isolation.

(** An absent module id is interpolated as the text "undefined", so it
    shares its key with the module id "undefined". *)
Lemma keys_identify_their_owner_witness :
  user_id Sample.alice = user_id Sample.alice
  /\ interp (Some "undefined") = interp None.
Proof.
  destruct (keys_identify_their_owner Sample.alice Sample.alice)
    as (_ & _ & _ & _ & Hmore).
  destruct (Hmore eq_refl eq_refl) as [Hprogress _].
  apply (Hprogress (Some "undefined") None). reflexivity.
Defined.

Lemma another_users_request_changes_nothing_of_mine_witness :
  let w := run_progress Sample.env
             [authed Sample.alice Sample.first_update] Sample.start in
  same_records Sample.alice w
    (snd (handle (post_progress Sample.env
                    (authed Cases.bob Sample.completed_again)) w)).
Proof.
  intros w.
  apply (another_users_request_changes_nothing_of_mine Sample.env
           Sample.alice Cases.bob w).
  - apply served_progress.
  - discriminate.
  - reflexivity.
  - reflexivity.
Defined.

(** ** Bearer tokens between client and server *)

Section Bearer.

Lemma split_on_free (c : ascii) (t : string) :
  free_of c t = true -> split_on c t = [t].
Proof.
  induction t as [|d t IH]; cbn; [done|].
  intros Hfree. apply andb_true_iff in Hfree as [Hd Hfree].
  destruct (Ascii.eqb d c); [done|]. by rewrite (IH Hfree).
Qed.

Lemma split_on_segment (c : ascii) (a rest : string) :
  free_of c a = true ->
  split_on c (a +:+ String c rest) = a :: split_on c rest.
Proof.
  induction a as [|d a IH]; intros Hfree.
  - change (split_on c (String c rest) = EmptyString :: split_on c rest).
    cbn. by rewrite Ascii.eqb_refl.
  - cbn in Hfree. apply andb_true_iff in Hfree as [Hd Hfree].
    change (split_on c (String d (a +:+ String c rest))
            = String d a :: split_on c rest).
    cbn. destruct (Ascii.eqb d c); [done|]. by rewrite (IH Hfree).
Qed.

(** The token the server reads from a header [Bearer <text>] is the text up
    to its first space: all of it when it holds no space. A header without
    any space yields no token. *)
Theorem bearer_token_spec (t a rest h : string) :
  (free_of " " t = true -> bearer_token ("Bearer " +:+ t) = Some t)
  /\ (free_of " " a = true ->
      bearer_token ("Bearer " +:+ a +:+ " " +:+ rest) = Some a)
  /\ (free_of " " h = true -> bearer_token h = None).
Proof.
  unfold bearer_token. repeat split.
  - intros Hfree. change ("Bearer " +:+ t) with ("Bearer" +:+ String " " t).
    rewrite (split_on_segment " " "Bearer" t eq_refl), (split_on_free _ _ Hfree).
    done.
  - intros Hfree.
    change ("Bearer " +:+ a +:+ " " +:+ rest)
      with ("Bearer" +:+ String " " (a +:+ String " " rest)).
    rewrite (split_on_segment " " "Bearer" _ eq_refl).
    by rewrite (split_on_segment " " a rest Hfree).
  - intros Hfree. by rewrite (split_on_free _ _ Hfree).
Qed.

(** Client and server agree on the token: from the header the client
    wrapper builds, [verifyAuth] asks the identity provider about exactly
    the client's token, or about the public key when the client has none,
    provided that text holds no space. *)
Theorem client_token_reaches_provider (publicAnonKey : string)
    (token : option string) (getUser : option string -> option User) :
  free_of " " (js_or_else token publicAnonKey) = true ->
  verifyAuth getUser (Some (authorization_header publicAnonKey token))
  = getUser (Some (js_or_else token publicAnonKey)).
Proof.
  intros Hfree. unfold verifyAuth, authorization_header.
  change (truthy ("Bearer " +:+ js_or_else token publicAnonKey)) with true.
  cbn match. f_equal. unfold bearer_token.
  change ("Bearer " +:+ js_or_else token publicAnonKey)
    with ("Bearer" +:+ String " " (js_or_else token publicAnonKey)).
  by rewrite (split_on_segment " " "Bearer" _ eq_refl), (split_on_free _ _ Hfree).
Qed.

End Bearer.

Lemma bearer_token_spec_witness :
  bearer_token "Bearer eyJhbGciOi.alice" = Some "eyJhbGciOi.alice"
  /\ bearer_token "Bearer eyJhbGciOi.alice trailing" = Some "eyJhbGciOi.alice"
  /\ bearer_token "eyJhbGciOi.alice" = None.
Proof.
  destruct (bearer_token_spec "eyJhbGciOi.alice" "eyJhbGciOi.alice" "trailing"
              "eyJhbGciOi.alice") as (H1 & H2 & H3).
  split; [by apply H1|]. split; [by apply H2 | by apply H3].
Defined.

Lemma client_token_reaches_provider_witness :
  verifyAuth Cases.accept_alice
    (Some (authorization_header "anon-key" (Some "eyJhbGciOi.alice")))
  = Some Sample.alice.
Proof.
  rewrite (client_token_reaches_provider "anon-key" (Some "eyJhbGciOi.alice")
             Cases.accept_alice eq_refl).
  reflexivity.
Defined.

(** ** The client wrapper *)

Section ClientContract.

Context {B D : Type} `{Truthy B}.
Context (projectId publicAnonKey : string) (error_of : D -> option string).

(** [apiCall] returns data exactly when the response is ok and its body
    is JSON, and then returns that body; in every other case it throws. A
    GET request (the default method) is sent without a body, whatever the
    options hold. *)
Theorem apiCall_contract (send : HttpRequest B -> Transport D)
    (endpoint : string) (options : ApiOptions B) :
  let rq := api_request projectId publicAnonKey endpoint options in
  (forall d, apiCall projectId publicAnonKey error_of send endpoint options = inr d
             <-> exists status, send rq = Replied true status (Some d))
  /\ (forall status d e,
        send rq = Replied false status (Some d) ->
        configured (error_of d) = Some e ->
        apiCall projectId publicAnonKey error_of send endpoint options = inl e)
  /\ (default "GET" (o_method options) = "GET" -> rq_body rq = None).
Proof.
  cbn zeta. unfold apiCall. repeat split.
  - destruct (send _) as [err|[|] status [d'|]]; try done.
    intros [= ->]. by exists status.
  - intros [status ->]. done.
  - intros status d e -> He. f_equal. unfold configured in He.
    destruct (error_of d) as [e'|]; [|done]. cbn.
    destruct (truthy e'); congruence.
  - intros Hget. cbn. rewrite Hget. cbn. by rewrite andb_false_r.
Qed.

End ClientContract.

Lemma apiCall_contract_witness :
  apiCall "proj" "anon-key" Cases.d_error Cases.refusing "/profile"
    {| o_method := None; o_body := Some "ignored"; o_token := None |}
  = inl "Unauthorized"
  /\ rq_body (api_request "proj" "anon-key" "/profile"
                {| o_method := None; o_body := Some "ignored"; o_token := None |})
     = None.
Proof.
  destruct (apiCall_contract "proj" "anon-key" Cases.d_error Cases.refusing
              "/profile"
              {| o_method := None; o_body := Some "ignored"; o_token := None |})
    as (_ & Herr & Hget).
  split; [|by apply Hget].
  by apply (Herr "401" {| Cases.d_error := Some "Unauthorized"; Cases.d_text := "" |}).
Defined.

(** ** Account lifecycle *)

Section Accounts.

Context (P : IdentityProvider).

Lemma find_by_email_some (email : string) (users : list AuthUser) (u : AuthUser) :
  find_by_email email users = Some u -> u ∈ users /\ au_email u = Some email.
Proof.
  intros Hfind. apply List.find_some in Hfind as [Hin Heq].
  split; [by apply list_elem_of_In|]. by apply bool_decide_eq_true in Heq.
Qed.

Lemma find_by_email_none (email : string) (users : list AuthUser) :
  find_by_email email users = None ->
  forall u, u ∈ users -> au_email u <> Some email.
Proof.
  intros Hfind u Hin Heq. apply list_elem_of_In in Hin.
  pose proof (List.find_none _ _ Hfind u Hin) as Hno. cbn in Hno.
  by rewrite bool_decide_eq_true_2 in Hno.
Qed.

Lemma configured_some (o : option string) (s : string) :
  configured o = Some s -> o = Some s.
Proof.
  unfold configured. destruct o as [t|]; [|done]. by destruct (truthy t); intros [= ->].
Qed.

(** Signup with a missing or empty email, password or name is refused with
    400 before the identity provider is contacted. *)
Theorem signup_requires_all_fields (b : SignupBody) (calls : list AdminCall) :
  configured (sb_email b) = None \/ configured (sb_password b) = None
  \/ configured (sb_name b) = None ->
  signup P (Some b) calls
  = ({| a_code := 400;
        a_payload := AError "Email, password, and name are required" |}, calls).
Proof.
  unfold signup. intros [He|[Hp|Hn]].
  - by rewrite He.
  - rewrite Hp. by destruct (configured (sb_email b)).
  - rewrite Hn. by destruct (configured (sb_email b)), (configured (sb_password b)).
Qed.

Lemma find_by_email_first (email : string) (before after : list AuthUser)
    (u : AuthUser) :
  none_with_email email before -> au_email u = Some email ->
  find_by_email email (before ++ u :: after) = Some u.
Proof.
  intros Hbefore Hu. unfold find_by_email.
  induction Hbefore as [|v before Hv _ IH]; cbn.
  - by rewrite bool_decide_eq_true_2.
  - by rewrite bool_decide_eq_false_2.
Qed.

Lemma find_by_email_absent (email : string) (users : list AuthUser) :
  none_with_email email users -> find_by_email email users = None.
Proof.
  intros Hnone. unfold find_by_email.
  induction Hnone as [|v users Hv _ IH]; cbn; [done|].
  by rewrite bool_decide_eq_false_2.
Qed.

Lemma configured_truthy (s : string) : truthy s = true -> configured (Some s) = Some s.
Proof. intros Hs. unfold configured. by rewrite Hs. Qed.

(** The admin calls of a signup that carries an email, a password and a
    name, in order. When the first listed account with the submitted email
    is confirmed: the listing alone, and the answer is 400 "user exists".
    When it is not confirmed: the listing, the deletion of that account and
    the creation with the submitted credentials. When the listing fails or
    no listed account has the email: the listing and the creation. Where a
    creation is made, the answer is the one to its outcome. *)
Theorem signup_admin_calls (email password name : string)
    (calls : list AdminCall) :
  truthy email = true -> truthy password = true -> truthy name = true ->
  let run :=
    signup P (Some {| sb_email := Some email; sb_password := Some password;
                      sb_name := Some name |}) calls in
  let listed := listUsers P (calls ++ [ListUsers]) in
  (forall before u after,
     listed = inr (before ++ u :: after)%list ->
     none_with_email email before ->
     au_email u = Some email ->
     (truthy (email_confirmed_at u) = true ->
      run = ({| a_code := 400;
                a_payload := AUserExists "A user with this email already exists. Please sign in instead." |},
             (calls ++ [ListUsers])%list))
     /\ (truthy (email_confirmed_at u) = false ->
         let made := (calls ++ [ListUsers; DeleteUser (au_id u);
                                CreateUser email password name])%list in
         run = (creation_answer (createUser P made), made)))
  /\ ((forall users, listed = inr users -> none_with_email email users) ->
      let made := (calls ++ [ListUsers; CreateUser email password name])%list in
      run = (creation_answer (createUser P made), made)).
Proof.
  intros He Hp Hn run listed. subst run listed. unfold signup.
  cbn [sb_email sb_password sb_name].
  rewrite (configured_truthy _ He), (configured_truthy _ Hp),
    (configured_truthy _ Hn).
  split.
  - intros before u after Hlist Hbefore Hu. rewrite Hlist.
    rewrite (find_by_email_first _ _ _ _ Hbefore Hu). split.
    + by intros ->.
    + intros ->. cbn zeta. rewrite <- !app_assoc. cbn [app].
      unfold creation_answer.
      by destruct (createUser P _) as [msg|user]; [destruct (includes _ msg)|].
  - intros Hnone. cbn zeta.
    assert (Hfind : match listUsers P (calls ++ [ListUsers]) with
                    | inr users => find_by_email email users
                    | inl _ => None
                    end = None).
    { destruct (listUsers P _) as [err|users] eqn:Hlist; [done|].
      by apply find_by_email_absent, Hnone. }
    rewrite Hfind, <- !app_assoc. cbn [app]. unfold creation_answer.
    by destruct (createUser P _) as [msg|user]; [destruct (includes _ msg)|].
Qed.

(** reset-password and delete-user act on the first listed account whose
    email is the submitted one, and on no other. Without the required
    fields the answer is 400 and no admin call is made. With them the users
    are listed; when the listing fails the answer is 500, when no listed
    account has the email it is 404, and in both cases the listing is the
    only call; otherwise the one further call updates the password of, or
    deletes, the first listed account with the email, and the answer is 200,
    or 400 with the message when that call reports an error. *)
Theorem account_changes_hit_the_named_account (calls : list AdminCall) :
  (forall b,
     configured (rb_email b) = None \/ configured (rb_newPassword b) = None ->
     reset_password P (Some b) calls
     = ({| a_code := 400; a_payload := AError "Email and new password are required" |},
        calls))
  /\ (forall b,
        configured (db_email b) = None ->
        delete_user P (Some b) calls
        = ({| a_code := 400; a_payload := AError "Email is required" |}, calls))
  /\ (forall email newPassword,
        truthy email = true -> truthy newPassword = true ->
        let run :=
          reset_password P (Some {| rb_email := Some email;
                                    rb_newPassword := Some newPassword |}) calls in
        let listed := listUsers P (calls ++ [ListUsers]) in
        (forall err, listed = inl err ->
           run = ({| a_code := 500; a_payload := AError "Failed to find user" |},
                  (calls ++ [ListUsers])%list))
        /\ (forall users, listed = inr users -> none_with_email email users ->
              run = ({| a_code := 404;
                        a_payload := AError "No user found with this email address" |},
                     (calls ++ [ListUsers])%list))
        /\ (forall before u after,
              listed = inr (before ++ u :: after)%list ->
              none_with_email email before ->
              au_email u = Some email ->
              let made := (calls ++ [ListUsers;
                                     UpdateUserById (au_id u) newPassword])%list in
              run = (match updateUserById P made with
                     | Some msg => {| a_code := 400; a_payload := AError msg |}
                     | None =>
                       {| a_code := 200;
                          a_payload := ADone "Password has been reset successfully" |}
                     end, made)))
  /\ (forall email,
        truthy email = true ->
        let run := delete_user P (Some {| db_email := Some email |}) calls in
        let listed := listUsers P (calls ++ [ListUsers]) in
        (forall err, listed = inl err ->
           run = ({| a_code := 500; a_payload := AError "Failed to find user" |},
                  (calls ++ [ListUsers])%list))
        /\ (forall users, listed = inr users -> none_with_email email users ->
              run = ({| a_code := 404;
                        a_payload := AError "No user found with this email address" |},
                     (calls ++ [ListUsers])%list))
        /\ (forall before u after,
              listed = inr (before ++ u :: after)%list ->
              none_with_email email before ->
              au_email u = Some email ->
              let made := (calls ++ [ListUsers; DeleteUser (au_id u)])%list in
              run = (match deleteUser P made with
                     | Some msg => {| a_code := 400; a_payload := AError msg |}
                     | None =>
                       {| a_code := 200;
                          a_payload := ADone "User account has been deleted successfully" |}
                     end, made))).
Proof.
  split; [|split; [|split]].
  - intros b [He|Hp]; unfold reset_password.
    + by rewrite He.
    + rewrite Hp. by destruct (configured (rb_email b)).
  - intros b He. unfold delete_user. by rewrite He.
  - intros email newPassword He Hp run listed. subst run listed.
    unfold reset_password, locate. cbn [rb_email rb_newPassword].
    rewrite (configured_truthy _ He), (configured_truthy _ Hp).
    split; [|split].
    + by intros err ->.
    + intros users -> Hnone. by rewrite (find_by_email_absent _ _ Hnone).
    + intros before u after -> Hbefore Hu.
      rewrite (find_by_email_first _ _ _ _ Hbefore Hu). cbn zeta.
      rewrite <- !app_assoc. cbn [app]. by destruct (updateUserById P _).
  - intros email He run listed. subst run listed.
    unfold delete_user, locate. cbn [db_email].
    rewrite (configured_truthy _ He).
    split; [|split].
    + by intros err ->.
    + intros users -> Hnone. by rewrite (find_by_email_absent _ _ Hnone).
    + intros before u after -> Hbefore Hu.
      rewrite (find_by_email_first _ _ _ _ Hbefore Hu). cbn zeta.
      rewrite <- !app_assoc. cbn [app]. by destruct (deleteUser P _).
Qed.

End Accounts.

Lemma signup_requires_all_fields_witness :
  signup Cases.registry
    (Some {| sb_email := Some "eve@example.org"; sb_password := Some "";
             sb_name := Some "Eve" |}) []
  = ({| a_code := 400;
        a_payload := AError "Email, password, and name are required" |}, []).
Proof.
  apply signup_requires_all_fields. right. left. reflexivity.
Defined.

(** Signup with Dave's email: Carol is listed before him with another
    email, his account is not confirmed. It is deleted and created anew. *)
Lemma signup_admin_calls_witness :
  signup Cases.registry (Some (Cases.signup_as "dave@example.org")) []
  = ({| a_code := 200;
        a_payload := ACreated
                       {| au_id := "n-3"; au_email := Some "dave@example.org";
                          email_confirmed_at := Some "2024-01-01T09:00:00Z" |} |},
     [ListUsers; DeleteUser "d-2"; CreateUser "dave@example.org" "s3cret!" "New"]).
Proof.
  refine (proj2 (proj1 (signup_admin_calls Cases.registry "dave@example.org"
                          "s3cret!" "New" [] eq_refl eq_refl eq_refl)
                       [Cases.carol] Cases.dave [] eq_refl _ eq_refl) eq_refl).
  repeat constructor. discriminate.
Defined.

(** Resetting Dave's password updates the account "d-2" and no other. *)
Lemma account_changes_hit_the_named_account_witness :
  reset_password Cases.registry
    (Some {| rb_email := Some "dave@example.org";
             rb_newPassword := Some "n3w-s3cret" |}) []
  = ({| a_code := 200;
        a_payload := ADone "Password has been reset successfully" |},
     [ListUsers; UpdateUserById "d-2" "n3w-s3cret"]).
Proof.
  destruct (account_changes_hit_the_named_account Cases.registry [])
    as (_ & _ & Hreset & _).
  refine (proj2 (proj2 (Hreset "dave@example.org" "n3w-s3cret" eq_refl eq_refl))
                [Cases.carol] Cases.dave [] eq_refl _ eq_refl).
  repeat constructor. discriminate.
Defined.

(** Signup with the email of a confirmed account, and with the email of an
    unconfirmed one. *)
Example signup_over_existing_accounts :
  signup Cases.registry (Some (Cases.signup_as "carol@example.org")) []
  = ({| a_code := 400;
        a_payload := AUserExists "A user with this email already exists. Please sign in instead." |},
     [ListUsers])
  /\ snd (signup Cases.registry (Some (Cases.signup_as "dave@example.org")) [])
     = [ListUsers; DeleteUser "d-2";
        CreateUser "dave@example.org" "s3cret!" "New"].
Proof. split; reflexivity. Qed.

Example delete_unknown_account :
  delete_user Cases.registry (Some {| db_email := Some "nobody@example.org" |}) []
  = ({| a_code := 404; a_payload := AError "No user found with this email address" |},
     [ListUsers]).
Proof. reflexivity. Qed.

(** ** GET /progress *)

Section ProgressListing.

Context (E : Environment).

Lemma string_app_assoc (a b c : string) : (a +:+ b) +:+ c = a +:+ b +:+ c.
Proof.
  induction a as [|d a IH]; [done|].
  change (String d ((a +:+ b) +:+ c) = String d (a +:+ b +:+ c)). by rewrite IH.
Qed.

(** After an update, the list GET /progress returns for the user holds the
    record just stored, and every item of the list is a record stored under
    a key that starts with the user's progress prefix. *)
Theorem progress_listed_after_update (u : User) (b : ProgressBody) (w : World) :
  let run := handle (post_progress E (authed u b)) w in
  exists p items,
    payload (fst run) = PProgress p
    /\ get_progress (Some u) (snd run) = {| g_code := 200; g_payload := GProgress items |}
    /\ p ∈ items
    /\ (forall q, q ∈ items ->
          exists k, String.prefix ("progress:" +:+ user_id u +:+ ":") k = true
                    /\ progress (kv (snd run)) !! k = Some q).
Proof.
  cbn zeta.
  destruct (post_progress_step E u b w) as (p & w' & Hrun & Hkv & _).
  rewrite Hrun. cbn [fst snd payload].
  exists p, (store_get_by_prefix ("progress:" +:+ user_id u +:+ ":") (kv w')).
  split; [done|]. split; [done|].
  unfold store_get_by_prefix. cbn [table stored_Progress]. split.
  - apply list_elem_of_fmap. exists (progress_key u (b_moduleId b), p).
    split; [done|]. apply elem_of_map_to_list, map_lookup_filter_Some.
    split; [by rewrite Hkv, lookup_insert_eq|].
    cbn [fst]. apply prefix_spec. exists (interp (b_moduleId b)).
    unfold progress_key. by rewrite !string_app_assoc.
  - intros q Hq. apply list_elem_of_fmap in Hq as ([k q'] & -> & Hq).
    apply elem_of_map_to_list, map_lookup_filter_Some in Hq as [Hk Hprefix].
    by exists k.
Qed.

End ProgressListing.

Lemma progress_listed_after_update_witness :
  exists items,
    get_progress (Some Sample.alice)
      (snd (handle (post_progress Sample.env
                      (authed Sample.alice Sample.first_update)) Sample.start))
      = {| g_code := 200; g_payload := GProgress items |}
    /\ exists p, p ∈ items /\ timeSpent p = Some 30.
Proof.
  destruct (progress_listed_after_update Sample.env Sample.alice
              Sample.first_update Sample.start)
    as (p & items & Hpay & Hget & Hin & _).
  exists items. split; [exact Hget|]. exists p. split; [exact Hin|].
  cbn in Hpay. by injection Hpay as <-.
Defined.
